(** * Scoring core of run_metrics_to_csv.py and run_metrics_to_csv_DeepSeek.py

    A shallow embedding of the count accumulation ([calculate_counts],
    [calculate_item_metrics]) and of the metrics calculation
    ([compute_metrics]).  Python sets are stdpp [gset]s, Python ints are
    [nat] (all counts are non-negative), Python true division is exact
    rational division in [Q], and the per-category dict [type_counts] is an
    association list kept in insertion order, as a Python dict is. *)

From stdpp Require Import base gmap sets list strings.
From Stdlib Require Import QArith Qfield Lqa.

Open Scope nat_scope.

(** ** Python outcomes *)

(** Exceptions that the embedded code can raise. *)
Inductive PyExc :=
  | UnboundLocalError
  | ZeroDivisionError
  | TypeError.

(** A Python computation either returns a value or raises. *)
Inductive PyResult (A : Type) :=
  | Ok (a : A)
  | Raise (e : PyExc).
Arguments Ok {A} a.
Arguments Raise {A} e.

#[global] Instance py_mret : MRet PyResult := fun A a => Ok a.
#[global] Instance py_mbind : MBind PyResult := fun A B f m =>
  match m with
  | Ok a => f a
  | Raise e => Raise e
  end.

(** Truthiness of an optional string value ([None] stands for an absent
    key or JSON null): [None] and [""] are falsy. *)
Definition truthy (v : option string) : bool :=
  match v with
  | Some s => negb (String.eqb s "")
  | None => false
  end.

(** Python's [a or b]: [a] when it is truthy, [b] otherwise. *)
Definition py_or (a b : option string) : option string :=
  if truthy a then a else b.

(** ** Confusion counts: dicts {"TP", "FN", "FP", "TN"} *)

Record counts := mkCounts { TP : nat; FN : nat; FP : nat; TN : nat }.

Definition zero_counts : counts := mkCounts 0 0 0 0.

(** The accumulator's fold: every [d["K"] += v] of the code, field-wise. *)
Definition fold_counts (acc c : counts) : counts :=
  mkCounts (TP acc + TP c) (FN acc + FN c) (FP acc + FP c) (TN acc + TN c).

Definition add_TP (c : counts) : counts := fold_counts c (mkCounts 1 0 0 0).
Definition add_FN (c : counts) : counts := fold_counts c (mkCounts 0 1 0 0).

(** The item-level update: [TP += tp_items; FN += fn_items; FP += fp_items]. *)
Definition add_items (c : counts) (t : nat * nat * nat) : counts :=
  let '(tp, fn, fp) := t in fold_counts c (mkCounts tp fn fp 0).

(** One entry of [type_counts]: {"query_level": ..., "item_level": ...}. *)
Record type_entry := mkEntry { query_level : counts; item_level : counts }.

Definition zero_entry : type_entry := mkEntry zero_counts zero_counts.

(** [type_counts] as an insertion-ordered association list. *)
Definition type_counts := list (string * type_entry).

Fixpoint lookup_type (k : string) (tc : type_counts) : option type_entry :=
  match tc with
  | [] => None
  | (k', v) :: rest => if String.eqb k k' then Some v else lookup_type k rest
  end.

(** [if qtype not in type_counts: type_counts[qtype] = {...zeros...}] *)
Definition ensure_type (k : string) (tc : type_counts) : type_counts :=
  match lookup_type k tc with
  | Some _ => tc
  | None => tc ++ [(k, zero_entry)]
  end.

(** In-place update of the entry stored under [k]. *)
Fixpoint update_type (k : string) (f : type_entry -> type_entry)
    (tc : type_counts) : type_counts :=
  match tc with
  | [] => []
  | (k', v) :: rest =>
      if String.eqb k k' then (k', f v) :: rest
      else (k', v) :: update_type k f rest
  end.

Definition entry_query (f : counts -> counts) (e : type_entry) : type_entry :=
  mkEntry (f (query_level e)) (item_level e).
Definition entry_item (f : counts -> counts) (e : type_entry) : type_entry :=
  mkEntry (query_level e) (f (item_level e)).

(** ** calculate_counts (run_metrics_to_csv.py) *)

(** A data point of the results file; [None] is an absent key. *)
Record data_point := mkPoint {
  dp_sparql_response : option string;
  dp_generated_sparql : option string;
  dp_sparql : option string;
  dp_question_type : option string
}.

(** [data_point.get("sparql_response") or data_point.get("generated_sparql")] *)
Definition candidate_query (dp : data_point) : option string :=
  py_or (dp_sparql_response dp) (dp_generated_sparql dp).

(** [data_point.get("question_type", "unknown")] *)
Definition qtype_of (dp : data_point) : string :=
  default "unknown" (dp_question_type dp).

(** The string held by a truthy value, [None] for a falsy one. *)
Definition truthy_str (v : option string) : option string :=
  if truthy v then v else None.

Section CalculateCounts.

Context {Item : Type} `{Countable Item}.

(** [graph.safe_query]: the rows of the query result, or [None] when the
    call raises (any [Exception], the 30 s [TimeoutError] included). *)
Variable safe_query : string -> option (list Item).

(** The locals of [calculate_counts] that live across loop iterations.
    [generated_results] and [sample_results] are [None] while unbound. *)
Record loop_state := mkState {
  overall_query : counts;
  overall_item : counts;
  tcounts : type_counts;
  generated_results : option (gset Item);
  sample_results : option (gset Item)
}.

Definition init_state : loop_state :=
  mkState zero_counts zero_counts [] None None.

(** [len(g & s)], [len(s - g)], [len(g - s)] for generated [g], sample [s]. *)
Definition set_counts (generated sample : gset Item) : nat * nat * nat :=
  (size (generated ∩ sample), size (sample ∖ generated), size (generated ∖ sample)).

(** The [try] block: new bindings of the two locals and whether the query
    level outcome is TP ([true]) or FN ([false]); the [except] branch
    leaves the locals as the failing call left them. *)
Definition try_block (sr sq : string) (gen smp : option (gset Item))
    : option (gset Item) * option (gset Item) * bool :=
  match safe_query sr with
  | None => (gen, smp, false)
  | Some g =>
      let gs : gset Item := list_to_set g in
      match safe_query sq with
      | None => (Some gs, smp, false)
      | Some s =>
          let ss : gset Item := list_to_set s in
          (Some gs, Some ss, bool_decide (gs = ss))
      end
  end.

(** One iteration of the loop body. *)
Definition process_point (st : loop_state) (dp : data_point) : PyResult loop_state :=
  let qtype := qtype_of dp in
  let tc := ensure_type qtype (tcounts st) in
  match truthy_str (candidate_query dp), truthy_str (dp_sparql dp) with
  | Some sr, Some sq =>
      let '(gen, smp, matched) :=
        try_block sr sq (generated_results st) (sample_results st) in
      let bump := if matched then add_TP else add_FN in
      let oq := bump (overall_query st) in
      let tc := update_type qtype (entry_query bump) tc in
      (* item-level evaluation, after the try/except *)
      match gen, smp with
      | Some g, Some s =>
          let t := set_counts g s in
          Ok (mkState oq (add_items (overall_item st) t)
                (update_type qtype (entry_item (fun c => add_items c t)) tc)
                gen smp)
      | _, _ => Raise UnboundLocalError
      end
  | _, _ =>
      Ok (mkState (overall_query st) (overall_item st) tc
            (generated_results st) (sample_results st))
  end.

Fixpoint run (st : loop_state) (results : list data_point) : PyResult loop_state :=
  match results with
  | [] => Ok st
  | dp :: rest => st' ← process_point st dp; run st' rest
  end.

Definition calculate_counts (results : list data_point)
    : PyResult (counts * counts * type_counts) :=
  st ← run init_state results;
  Ok (overall_query st, overall_item st, tcounts st).

End CalculateCounts.

(** ** compute_metrics (run_metrics_to_csv.py) *)

Definition qn (n : nat) : Q := inject_Z (Z.of_nat n).

(** Python true division: raises [ZeroDivisionError] on a zero divisor. *)
Definition pydiv (a b : Q) : PyResult Q :=
  if Qeq_bool b 0 then Raise ZeroDivisionError else Ok (a / b)%Q.

(** Truthiness of a Python number. *)
Definition qtruthy (x : Q) : bool := negb (Qeq_bool x 0).

Record metrics := mkMetrics {
  support : nat;
  accuracy : Q;
  error_rate : Q;
  precision : Q;
  recall : Q;
  f1_score : Q;
  false_negative_rate : Q;
  false_positive_rate : Q
}.

(** Python's float division and subtraction are kept as exact rationals;
    the properties stated about the metrics are the ones that float
    rounding does not change (guards, bounds, signs, equal expressions). *)
Definition compute_metrics (c : counts) : PyResult metrics :=
  let sup := TP c + FN c + FP c + TN c in
  acc ← (if qtruthy (qn sup) then pydiv (qn (TP c + TN c)) (qn sup) else Ok 0%Q);
  let err := if qtruthy (qn sup) then (1 - acc)%Q else 0%Q in
  prec ← (if qtruthy (qn (TP c + FP c))
          then pydiv (qn (TP c)) (qn (TP c + FP c)) else Ok 0%Q);
  rec ← (if qtruthy (qn (TP c + FN c))
         then pydiv (qn (TP c)) (qn (TP c + FN c)) else Ok 0%Q);
  f1 ← (if qtruthy (prec + rec)%Q
        then pydiv (2 * prec * rec)%Q (prec + rec)%Q else Ok 0%Q);
  fnr ← (if qtruthy (qn (TP c + FN c))
         then pydiv (qn (FN c)) (qn (TP c + FN c)) else Ok 0%Q);
  fpr ← (if qtruthy (qn (TP c + FP c))
         then pydiv (qn (FP c)) (qn (TP c + FP c)) else Ok 0%Q);
  Ok (mkMetrics sup acc err prec rec f1 fnr fpr).

(** ** Per question type analysis of main (run_metrics_to_csv.py) *)

Record avg_counts := mkAvg { aTP : Q; aFN : Q; aFP : Q; aTN : Q }.

Definition average_item_counts (query_counts item_counts : counts) : avg_counts :=
  let valid := TP query_counts + FN query_counts + FP query_counts + TN query_counts in
  if Nat.eqb valid 0 then mkAvg 0 0 0 0
  else mkAvg (qn (TP item_counts) / qn valid) (qn (FN item_counts) / qn valid)
             (qn (FP item_counts) / qn valid) (qn (TN item_counts) / qn valid).

Record analysis := mkAnalysis {
  query_level_counts : counts;
  query_level_metrics : PyResult metrics;
  item_level_counts : counts;
  item_level_metrics : PyResult metrics;
  average_item_counts_per_query : avg_counts
}.

Definition analyse (e : type_entry) : analysis :=
  mkAnalysis (query_level e) (compute_metrics (query_level e))
             (item_level e) (compute_metrics (item_level e))
             (average_item_counts (query_level e) (item_level e)).

(** [per_type_analysis], in the insertion order of [type_counts]. *)
Definition per_type_analysis (tc : type_counts) : list (string * analysis) :=
  map (fun '(k, e) => (k, analyse e)) tc.

(** ** calculate_item_metrics (run_metrics_to_csv_DeepSeek.py) *)

(** The JSON values the [answer] and [deepseek-answer] fields hold. *)
Inductive jvalue :=
  | JBool (b : bool)
  | JList (l : list string)
  | JNull.

Record ds_point := mkDsPoint {
  ds_question_type : option string;
  ds_answer : option jvalue;
  ds_deepseek_answer : option jvalue
}.

(** [set(data_point.get("answer", []))]; a non-list answer gives [set()]
    ("answer is not a list ..., skipping"). *)
Definition correct_set (dp : ds_point) : gset string :=
  match default (JList []) (ds_answer dp) with
  | JList l => list_to_set l
  | _ => ∅
  end.

Definition yes_no (b : bool) : gset string := if b then {["yes"]} else {["no"]}.

(** The normalised [(correct_answers, deepseek_answer)] of one point: a
    boolean [deepseek-answer] turns both sides into [{"yes"}] or [{"no"}];
    otherwise [set(data_point.get("deepseek-answer", []))], which raises on
    a JSON null. *)
Definition ds_sets (dp : ds_point) : PyResult (gset string * gset string) :=
  let correct := correct_set dp in
  match ds_deepseek_answer dp with
  | Some (JBool b) => Ok (yes_no (bool_decide ("YES" ∈ correct)), yes_no b)
  | _ =>
      match default (JList []) (ds_deepseek_answer dp) with
      | JList l => Ok (correct, list_to_set l)
      | _ => Raise TypeError
      end
  end.

(** [len(correct & deepseek)], [len(correct - deepseek)], [len(deepseek - correct)] *)
Definition ds_counts (correct deepseek : gset string) : nat * nat * nat :=
  (size (correct ∩ deepseek), size (correct ∖ deepseek), size (deepseek ∖ correct)).

Definition ds_item_counts (dp : ds_point) : PyResult (nat * nat * nat) :=
  sets ← ds_sets dp;
  Ok (ds_counts (fst sets) (snd sets)).

(** The closed form of [compute_metrics]. *)
Definition ratio (a b : nat) : Q := if Nat.eqb b 0 then 0 else (qn a / qn b)%Q.

Definition f1_of (p r : Q) : Q :=
  if Qeq_bool (p + r) 0 then 0 else (2 * p * r / (p + r))%Q.

Definition metrics_of (c : counts) : metrics :=
  let sup := TP c + FN c + FP c + TN c in
  let prec := ratio (TP c) (TP c + FP c) in
  let rec := ratio (TP c) (TP c + FN c) in
  mkMetrics sup (ratio (TP c + TN c) sup)
    (if Nat.eqb sup 0 then 0 else 1 - ratio (TP c + TN c) sup)%Q
    prec rec (f1_of prec rec)
    (ratio (FN c) (TP c + FN c)) (ratio (FP c) (TP c + FP c)).

(** A case the loop skips: a falsy candidate or gold query string. *)
Definition skipped (dp : data_point) : bool :=
  negb (truthy (candidate_query dp) && truthy (dp_sparql dp)).

(** Query-level FP and TN are both zero. *)
Definition no_TN_FP (c : counts) : Prop := FP c = 0 /\ TN c = 0.

Definition zero_metrics : metrics := mkMetrics 0 0 0 0 0 0 0 0.

(** ** The CSV report written by main (run_metrics_to_csv.py) *)

(** A CSV cell: a string, an int written as is, or a number written with
    [f"{value:.4f}"] (kept here as the exact value it formats). *)
Inductive cell :=
  | CStr (s : string)
  | CInt (n : nat)
  | CFix (q : Q).

Definition row := list cell.

Definition header_row : row :=
  [CStr "Section"; CStr "Question Type"; CStr "Metric Category"; CStr "Metric";
   CStr "Value"].

(** The items of a counts dict, of a [compute_metrics] dict and of an
    average dict, in their insertion order. *)
Definition counts_items (c : counts) : list (string * nat) :=
  [("TP", TP c); ("FN", FN c); ("FP", FP c); ("TN", TN c)].

Definition metrics_items (m : metrics) : list (string * Q) :=
  [("support", qn (support m)); ("accuracy", accuracy m);
   ("error_rate", error_rate m); ("precision", precision m);
   ("recall", recall m); ("f1_score", f1_score m);
   ("false_negative_rate", false_negative_rate m);
   ("false_positive_rate", false_positive_rate m)].

Definition avg_items (a : avg_counts) : list (string * Q) :=
  [("TP", aTP a); ("FN", aFN a); ("FP", aFP a); ("TN", aTN a)].

Definition int_rows (sec lbl cat : string) (l : list (string * nat)) : list row :=
  map (fun '(k, v) => [CStr sec; CStr lbl; CStr cat; CStr k; CInt v]) l.

Definition fix_rows (sec lbl cat : string) (l : list (string * Q)) : list row :=
  map (fun '(k, v) => [CStr sec; CStr lbl; CStr cat; CStr k; CFix v]) l.

(** The rows of one entry of [per_type_analysis]. *)
Definition type_rows (qtype : string) (a : analysis) : PyResult (list row) :=
  qm ← query_level_metrics a;
  im ← item_level_metrics a;
  let sec := "Per Question Type Analysis" in
  Ok (int_rows sec qtype "Query-Level Counts" (counts_items (query_level_counts a)) ++
      fix_rows sec qtype "Query-Level Metrics" (metrics_items qm) ++
      int_rows sec qtype "Item-Level Counts" (counts_items (item_level_counts a)) ++
      fix_rows sec qtype "Item-Level Metrics" (metrics_items im) ++
      fix_rows sec qtype "Average Item-Level Counts per Query"
        (avg_items (average_item_counts_per_query a))).

Fixpoint all_type_rows (l : list (string * analysis)) : PyResult (list row) :=
  match l with
  | [] => Ok []
  | (k, a) :: rest => r ← type_rows k a; rs ← all_type_rows rest; Ok (r ++ rs)
  end.

(** The CSV written by [main] from the result of [calculate_counts]. *)
Definition csv_report (oq oi : counts) (tc : type_counts) : PyResult (list row) :=
  oqm ← compute_metrics oq;
  oim ← compute_metrics oi;
  let avg := average_item_counts oq oi in
  per ← all_type_rows (per_type_analysis tc);
  let sec := "Overall Analysis" in
  Ok (header_row :: per ++
      int_rows sec "Overall Query-Level Counts" "Counts" (counts_items oq) ++
      fix_rows sec "Overall Query-Level Metrics" "Metrics" (metrics_items oqm) ++
      int_rows sec "Overall Item-Level Counts" "Counts" (counts_items oi) ++
      fix_rows sec "Overall Item-Level Metrics" "Metrics" (metrics_items oim) ++
      fix_rows sec "Overall Average Item-Level Counts per Query" "Counts"
        (avg_items avg)).

(** ** The loop of calculate_item_metrics (run_metrics_to_csv_DeepSeek.py) *)

(** The dicts {"TP", "FN", "FP"} of the DeepSeek script. *)
Record counts3 := mkCounts3 { dTP : nat; dFN : nat; dFP : nat }.

Definition zero3 : counts3 := mkCounts3 0 0 0.

Definition add3 (c : counts3) (t : nat * nat * nat) : counts3 :=
  let '(tp, fn, fp) := t in mkCounts3 (dTP c + tp) (dFN c + fn) (dFP c + fp).

(** An insertion-ordered dict with string keys. *)
Fixpoint alookup {V} (k : string) (l : list (string * V)) : option V :=
  match l with
  | [] => None
  | (k', v) :: rest => if String.eqb k k' then Some v else alookup k rest
  end.

Definition aensure {V} (k : string) (z : V) (l : list (string * V)) : list (string * V) :=
  match alookup k l with
  | Some _ => l
  | None => l ++ [(k, z)]
  end.

Fixpoint aupdate {V} (k : string) (f : V -> V) (l : list (string * V)) : list (string * V) :=
  match l with
  | [] => []
  | (k', v) :: rest =>
      if String.eqb k k' then (k', f v) :: rest else (k', v) :: aupdate k f rest
  end.

Definition ds_qtype (dp : ds_point) : string := default "unknown" (ds_question_type dp).

(** One iteration: the sets are built (and may raise) before the bucket of
    the question type is created; then both dicts are updated. *)
Definition ds_process (acc : counts3 * list (string * counts3)) (dp : ds_point)
    : PyResult (counts3 * list (string * counts3)) :=
  t ← ds_item_counts dp;
  let q := ds_qtype dp in
  let tc := aensure q zero3 acc.2 in
  Ok (add3 acc.1 t, aupdate q (fun c => add3 c t) tc).

Fixpoint ds_run (acc : counts3 * list (string * counts3)) (results : list ds_point)
    : PyResult (counts3 * list (string * counts3)) :=
  match results with
  | [] => Ok acc
  | dp :: rest => acc' ← ds_process acc dp; ds_run acc' rest
  end.

Definition calculate_item_metrics (results : list ds_point)
    : PyResult (counts3 * list (string * counts3)) :=
  ds_run (zero3, []) results.

Record ds_metrics := mkDsMetrics {
  ds_precision : Q; ds_recall : Q; ds_f1_score : Q;
  ds_TP : nat; ds_FN : nat; ds_FP : nat
}.

(** [compute_metrics] of the DeepSeek script. *)
Definition ds_compute_metrics (c : counts3) : PyResult ds_metrics :=
  prec ← (if qtruthy (qn (dTP c + dFP c))
          then pydiv (qn (dTP c)) (qn (dTP c + dFP c)) else Ok 0%Q);
  rec ← (if qtruthy (qn (dTP c + dFN c))
         then pydiv (qn (dTP c)) (qn (dTP c + dFN c)) else Ok 0%Q);
  f1 ← (if qtruthy (prec + rec)%Q
        then pydiv (2 * prec * rec)%Q (prec + rec)%Q else Ok 0%Q);
  Ok (mkDsMetrics prec rec f1 (dTP c) (dFN c) (dFP c)).

(** ** export_wrong_item_level_director (error.py) *)

Definition designated_type : string := "actor_to_movie_constraint_year".

Section ExportWrong.

Context {Item : Type} `{Countable Item}.
Variable safe_query : string -> option (list Item).

(** One iteration of the loop over [results]. *)
Definition export_step (wrong : list data_point) (dp : data_point) : list data_point :=
  if negb (String.eqb (qtype_of dp) designated_type) then wrong
  else
    match truthy_str (candidate_query dp), truthy_str (dp_sparql dp) with
    | Some sr, Some sq =>
        match safe_query sr with
        | None => wrong ++ [dp]
        | Some g =>
            match safe_query sq with
            | None => wrong ++ [dp]
            | Some s =>
                if bool_decide ((list_to_set g : gset Item) <> list_to_set s)
                then wrong ++ [dp] else wrong
            end
        end
    | _, _ => wrong ++ [dp]
    end.

(** [wrong_data_points] at the end of the loop. *)
Definition export_wrong (results : list data_point) : list data_point :=
  fold_left export_step results [].

(** Whether both queries of a data point are present and run, and give the
    same result set: the query-level TP test of [calculate_counts]. *)
Definition query_matches (dp : data_point) : bool :=
  match truthy_str (candidate_query dp), truthy_str (dp_sparql dp) with
  | Some sr, Some sq =>
      match safe_query sr, safe_query sq with
      | Some g, Some s => bool_decide ((list_to_set g : gset Item) = list_to_set s)
      | _, _ => false
      end
  | _, _ => false
  end.

(** Whether both queries of a data point are present and run without raising. *)
Definition queries_run (dp : data_point) : bool :=
  match truthy_str (candidate_query dp), truthy_str (dp_sparql dp) with
  | Some sr, Some sq =>
      match safe_query sr, safe_query sq with
      | Some _, Some _ => true
      | _, _ => false
      end
  | _, _ => false
  end.

End ExportWrong.

(** ** create_small_dataset (old-work-for-storage/full_to_83_question_type.py) *)

Section SmallDataset.

Context {A : Type}.
(** [item.get("question_type")] *)
Variable question_type : A -> option string.

(** [groups[qtype].append(item)] on a defaultdict(list). *)
Definition group_add (k : string) (x : A) (groups : list (string * list A))
    : list (string * list A) :=
  aupdate k (fun l => l ++ [x]) (aensure k [] groups).

Definition group_items (data : list A) : list (string * list A) :=
  fold_left (fun groups item =>
    match question_type item with
    | Some q => group_add q item groups
    | None => groups
    end) data [].

Definition create_small_dataset (n_per_type : nat) (data : list A) : list A :=
  fold_left (fun small '(_, items) => small ++ take n_per_type items)
    (group_items data) [].

End SmallDataset.

(** ** Auxiliary definitions for the properties *)

(** Sum of one level of counts over all the buckets. *)
Definition bucket_sum (f : type_entry -> counts) (tc : type_counts) : counts :=
  fold_right (fun kv acc => fold_counts acc (f kv.2)) zero_counts tc.

Definition bucket_sum3 (tc : list (string * counts3)) : counts3 :=
  fold_right (fun kv acc => add3 acc (dTP kv.2, dFN kv.2, dFP kv.2)) zero3 tc.

(** The distinct strings of a list, in order of first occurrence. *)
Definition first_seen (l : list string) : list string :=
  fold_left (fun seen x => if existsb (String.eqb x) seen then seen else seen ++ [x])
    l [].

(** The counts of bucket [k], all zero when the bucket does not exist. *)
Definition bucket (k : string) (tc : type_counts) : type_entry :=
  default zero_entry (lookup_type k tc).

(** Whether [generated_results] and [sample_results] are both bound. *)
Definition vars_bound {Item : Type} `{Countable Item} (st : loop_state (Item:=Item)) : Prop :=
  is_Some (generated_results st) /\ is_Some (sample_results st).

(** Whether an item's question type is [k]. *)
Definition of_type {A} (question_type : A -> option string) (k : string) (x : A) : bool :=
  match question_type x with Some q => String.eqb q k | None => false end.

(** The question types of the items that have one, in order. *)
Fixpoint qtypes {A} (question_type : A -> option string) (data : list A) : list string :=
  match data with
  | [] => []
  | x :: rest =>
      match question_type x with
      | Some q => q :: qtypes question_type rest
      | None => qtypes question_type rest
      end
  end.

(** Number of elements satisfying a test. *)
Definition count_if {X} (p : X -> bool) (l : list X) : nat := length (filter p l).

(** ** A concrete graph for the examples *)

(** Query "a" returns rows 1 and 2, query "b" rows 1 and 3; any other
    query raises. *)
Definition demo_query (q : string) : option (list nat) :=
  if String.eqb q "a" then Some [1; 2]
  else if String.eqb q "b" then Some [1; 3]
  else None.

Definition p_ok := mkPoint (Some "a") None (Some "a") (Some "t1").
Definition p_fail := mkPoint (Some "bad") None (Some "a") (Some "t2").
Definition p_empty := mkPoint None (Some "") (Some "a") (Some "t3").

Definition entry_t1 := mkEntry (mkCounts 1 0 0 0) (mkCounts 2 0 0 0).

(** A skipped case, an exact match, and a case whose candidate query raises. *)
Definition demo_points := [p_empty; p_ok; p_fail].
Definition demo_tc : type_counts :=
  [("t3", zero_entry); ("t1", entry_t1);
   ("t2", mkEntry (mkCounts 0 1 0 0) (mkCounts 2 0 0 0))].

(** DeepSeek points: a list answer, a boolean answer on an ASK question,
    and a point with a non-list gold answer and no DeepSeek answer. *)
Definition ds_p1 := mkDsPoint (Some "x") (Some (JList ["a"; "b"])) (Some (JList ["a"; "c"])).
Definition ds_p2 := mkDsPoint (Some "y") (Some (JList ["YES"])) (Some (JBool false)).
Definition ds_p3 := mkDsPoint None (Some (JBool true)) None.
Definition ds_demo := [ds_p1; ds_p2; ds_p3].

(** Two cases of the type [export_wrong_item_level_director] looks at. *)
Definition p_des_ok := mkPoint (Some "a") None (Some "a") (Some designated_type).
Definition p_des_bad := mkPoint (Some "b") None (Some "a") (Some designated_type).
Definition des_demo := [p_des_ok; p_ok; p_des_bad].
Definition des_tc : type_counts :=
  [(designated_type, mkEntry (mkCounts 1 1 0 0) (mkCounts 3 1 1 0)); ("t1", entry_t1)].

(** ** Lemmas on the metrics *)

Lemma qn_eqb0 (n : nat) : Qeq_bool (qn n) 0 = Nat.eqb n 0.
Proof.
  destruct n as [|m]; [reflexivity|]. simpl.
  destruct (Qeq_bool (qn (S m)) 0) eqn:E; [|reflexivity].
  apply Qeq_bool_iff in E. unfold qn, Qeq in E. simpl in E. lia.
Qed.

Lemma qtruthy_qn (n : nat) : qtruthy (qn n) = negb (Nat.eqb n 0).
Proof. unfold qtruthy. by rewrite qn_eqb0. Qed.

Lemma guarded_div (a b : nat) :
  (if qtruthy (qn b) then pydiv (qn a) (qn b) else Ok 0%Q) = Ok (ratio a b).
Proof.
  unfold pydiv, ratio. rewrite qtruthy_qn, qn_eqb0.
  by destruct (Nat.eqb b 0).
Qed.

Lemma guarded_f1 (p r : Q) :
  (if qtruthy (p + r)%Q then pydiv (2 * p * r)%Q (p + r)%Q else Ok 0%Q)
  = Ok (f1_of p r).
Proof.
  unfold qtruthy, pydiv, f1_of. by destruct (Qeq_bool (p + r) 0).
Qed.

Lemma compute_metrics_ok (c : counts) : compute_metrics c = Ok (metrics_of c).
Proof.
  unfold compute_metrics. cbv zeta.
  rewrite !guarded_div. cbn [mbind py_mbind].
  rewrite guarded_f1. cbn [mbind py_mbind].
  unfold metrics_of. rewrite qtruthy_qn.
  by destruct (Nat.eqb (TP c + FN c + FP c + TN c) 0).
Qed.

Lemma ratio_bounds (a b : nat) : a <= b -> (0 <= ratio a b <= 1)%Q.
Proof.
  intros Hab. unfold ratio. destruct (Nat.eqb b 0) eqn:Hb.
  - split; discriminate.
  - apply Nat.eqb_neq in Hb.
    assert (Hq : (0 < qn b)%Q).
    { unfold qn, Qlt; simpl. lia. }
    assert (Ha : (0 <= qn a)%Q).
    { unfold qn, Qle; simpl. lia. }
    assert (Hle : (qn a <= qn b)%Q).
    { unfold qn, Qle; simpl. lia. }
    split.
    + apply Qle_shift_div_l; [exact Hq|]. by rewrite Qmult_0_l.
    + apply Qle_shift_div_r; [exact Hq|]. by rewrite Qmult_1_l.
Qed.

Lemma f1_bounds (p r : Q) :
  (0 <= p <= 1)%Q -> (0 <= r <= 1)%Q -> (0 <= f1_of p r <= 1)%Q.
Proof.
  intros [Hp0 Hp1] [Hr0 Hr1]. unfold f1_of.
  destruct (Qeq_bool (p + r) 0) eqn:Hs.
  - split; discriminate.
  - apply Qeq_bool_neq in Hs.
    assert (Hpos : (0 < p + r)%Q).
    { destruct (Qlt_le_dec 0 (p + r)) as [|Hle]; [done|].
      exfalso. apply Hs. lra. }
    split.
    + apply Qle_shift_div_l; [exact Hpos|]. rewrite Qmult_0_l. nra.
    + apply Qle_shift_div_r; [exact Hpos|]. rewrite Qmult_1_l. nra.
Qed.

(** ** Lemmas on the set comparison *)

Lemma size_inter_diff {A : Type} `{Countable A} (X Y : gset A) :
  size (X ∩ Y) + size (X ∖ Y) = size X.
Proof.
  pose proof (size_difference_alt X Y) as E. rewrite E.
  pose proof (subseteq_size (X ∩ Y) X ltac:(set_solver)). lia.
Qed.

(** ** Lemmas on [type_counts] *)

Lemma lookup_type_app (k k' : string) (v : type_entry) (tc : type_counts) :
  lookup_type k (tc ++ [(k', v)]) =
  match lookup_type k tc with
  | Some e => Some e
  | None => if String.eqb k k' then Some v else None
  end.
Proof.
  induction tc as [|[k0 v0] rest IH]; simpl; [done|].
  destruct (String.eqb k k0); [done|exact IH].
Qed.

Lemma lookup_ensure (k k' : string) (tc : type_counts) :
  lookup_type k (ensure_type k' tc) =
  if String.eqb k k' then Some (default zero_entry (lookup_type k tc))
  else lookup_type k tc.
Proof.
  unfold ensure_type.
  destruct (String.eqb_spec k k') as [->|Hne].
  - destruct (lookup_type k' tc) eqn:E; [done|].
    by rewrite lookup_type_app, E, String.eqb_refl.
  - destruct (lookup_type k' tc); [done|].
    rewrite lookup_type_app. destruct (lookup_type k tc); [done|].
    apply String.eqb_neq in Hne. by rewrite Hne.
Qed.

Lemma lookup_update_ne (k k' : string) f (tc : type_counts) :
  k <> k' -> lookup_type k (update_type k' f tc) = lookup_type k tc.
Proof.
  intros Hne. induction tc as [|[k0 v0] rest IH]; simpl; [done|].
  destruct (String.eqb_spec k' k0) as [<-|_]; simpl.
  - apply String.eqb_neq in Hne. by rewrite Hne.
  - destruct (String.eqb k k0); [done|exact IH].
Qed.

Lemma Forall_ensure (P : type_entry -> Prop) (k : string) (tc : type_counts) :
  Forall (fun kv => P kv.2) tc -> P zero_entry ->
  Forall (fun kv => P kv.2) (ensure_type k tc).
Proof.
  intros Hall Hz. unfold ensure_type.
  destruct (lookup_type k tc); [done|].
  apply Forall_app; split; [done|]. by constructor.
Qed.

Lemma Forall_update (P : type_entry -> Prop) (k : string) f (tc : type_counts) :
  (forall e, P e -> P (f e)) ->
  Forall (fun kv => P kv.2) tc -> Forall (fun kv => P kv.2) (update_type k f tc).
Proof.
  intros Hf. induction tc as [|[k0 v0] rest IH]; intros Hall; simpl; [done|].
  inversion Hall as [|? ? Hv Hrest]; subst.
  destruct (String.eqb k k0); constructor; simpl; auto.
Qed.

Lemma lookup_in_analysis (k : string) (e : type_entry) (tc : type_counts) :
  lookup_type k tc = Some e -> In (k, analyse e) (per_type_analysis tc).
Proof.
  induction tc as [|[k0 v0] rest IH]; simpl; [discriminate|].
  destruct (String.eqb_spec k k0) as [->|_].
  - intros [= ->]. by left.
  - intros He. right. by apply IH.
Qed.

(** ** Lemmas on the loop of [calculate_counts] *)

Lemma truthy_str_some (v : option string) (s : string) :
  truthy_str v = Some s -> truthy v = true.
Proof. unfold truthy_str. by destruct (truthy v). Qed.

Lemma truthy_str_none (v : option string) :
  truthy v = false -> truthy_str v = None.
Proof. unfold truthy_str. by intros ->. Qed.

Section Loop.

Context {Item : Type} `{Countable Item}.
Variable safe_query : string -> option (list Item).

Lemma no_TN_FP_bump (b : bool) (c : counts) :
  no_TN_FP c -> no_TN_FP ((if b then add_TP else add_FN) c).
Proof.
  destruct c as [tp fn fp tn]; unfold no_TN_FP; simpl.
  destruct b; simpl; lia.
Qed.

Lemma process_point_no_TN_FP (st st' : loop_state) (dp : data_point) :
  process_point safe_query st dp = Ok st' ->
  no_TN_FP (overall_query st) ->
  Forall (fun kv => no_TN_FP (query_level kv.2)) (tcounts st) ->
  no_TN_FP (overall_query st') /\
  Forall (fun kv => no_TN_FP (query_level kv.2)) (tcounts st').
Proof.
  intros Hstep Hq Htc.
  assert (Hens : Forall (fun kv => no_TN_FP (query_level kv.2))
                   (ensure_type (qtype_of dp) (tcounts st))).
  { apply (Forall_ensure (fun e => no_TN_FP (query_level e))); [done|].
    unfold no_TN_FP; simpl; lia. }
  unfold process_point in Hstep.
  destruct (truthy_str (candidate_query dp)) as [sr|];
    destruct (truthy_str (dp_sparql dp)) as [sq|];
    try (injection Hstep as <-; simpl; done).
  destruct (try_block safe_query sr sq (generated_results st) (sample_results st))
    as [[gen smp] matched].
  destruct gen as [g|], smp as [s|]; try discriminate.
  injection Hstep as <-; simpl. split; [by apply no_TN_FP_bump|].
  apply (Forall_update (fun e => no_TN_FP (query_level e))); [done|].
  apply (Forall_update (fun e => no_TN_FP (query_level e))); [|done].
  intros e He. by apply no_TN_FP_bump.
Qed.

Lemma run_no_TN_FP (results : list data_point) :
  forall st r, run safe_query st results = Ok r ->
  no_TN_FP (overall_query st) ->
  Forall (fun kv => no_TN_FP (query_level kv.2)) (tcounts st) ->
  no_TN_FP (overall_query r) /\
  Forall (fun kv => no_TN_FP (query_level kv.2)) (tcounts r).
Proof.
  induction results as [|dp rest IH]; intros st r Hrun Hq Htc; simpl in Hrun.
  - by injection Hrun as <-.
  - destruct (process_point safe_query st dp) as [st'|e] eqn:Hstep;
      [|discriminate].
    destruct (process_point_no_TN_FP st st' dp Hstep Hq Htc).
    by apply (IH st').
Qed.

Lemma process_point_lookup (k : string) (st st' : loop_state) (dp : data_point) :
  process_point safe_query st dp = Ok st' ->
  (qtype_of dp = k -> skipped dp = true) ->
  lookup_type k (tcounts st') =
  if String.eqb k (qtype_of dp)
  then Some (default zero_entry (lookup_type k (tcounts st)))
  else lookup_type k (tcounts st).
Proof.
  intros Hstep Hskip. unfold process_point in Hstep.
  destruct (truthy_str (candidate_query dp)) as [sr|] eqn:Hc;
    destruct (truthy_str (dp_sparql dp)) as [sq|] eqn:Hs;
    try (injection Hstep as <-; simpl; apply lookup_ensure).
  assert (Hne : k <> qtype_of dp).
  { intros Heq. specialize (Hskip (eq_sym Heq)). unfold skipped in Hskip.
    rewrite (truthy_str_some _ _ Hc), (truthy_str_some _ _ Hs) in Hskip.
    discriminate. }
  destruct (try_block safe_query sr sq (generated_results st) (sample_results st))
    as [[gen smp] matched].
  destruct gen as [g|], smp as [s|]; try discriminate.
  injection Hstep as <-; simpl.
  rewrite !lookup_update_ne by done. rewrite lookup_ensure.
  apply String.eqb_neq in Hne. by rewrite Hne.
Qed.

Lemma run_lookup (k : string) (results : list data_point) :
  forall st r, run safe_query st results = Ok r ->
  (forall dp, In dp results -> qtype_of dp = k -> skipped dp = true) ->
  lookup_type k (tcounts r) =
  if existsb (String.eqb k) (map qtype_of results)
  then Some (default zero_entry (lookup_type k (tcounts st)))
  else lookup_type k (tcounts st).
Proof.
  induction results as [|dp rest IH]; intros st r Hrun Hskip; simpl in Hrun |- *.
  - by injection Hrun as <-.
  - destruct (process_point safe_query st dp) as [st'|e] eqn:Hstep;
      [|discriminate].
    rewrite (IH st' r Hrun) by (intros; apply Hskip; [right|]; done).
    rewrite (process_point_lookup k st st' dp Hstep) by (apply Hskip; by left).
    destruct (String.eqb k (qtype_of dp)), (existsb (String.eqb k) (map qtype_of rest));
      reflexivity.
Qed.

End Loop.

(** ** Claims *)

(** C3: [compute_metrics] never raises and returns support = TP+FN+FP+TN,
    accuracy = (TP+TN)/support, error_rate = 1 - accuracy,
    precision = TP/(TP+FP), recall = TP/(TP+FN),
    f1 = 2*precision*recall/(precision+recall), fn_rate = FN/(TP+FN) and
    fp_rate = FP/(TP+FP), each of them exactly 0 when its denominator is 0
    (values are exact rationals: no NaN arises). *)
Theorem compute_metrics_formulas (c : counts) :
  exists m, compute_metrics c = Ok m /\
    support m = TP c + FN c + FP c + TN c /\
    accuracy m = (if Nat.eqb (support m) 0 then 0
                  else qn (TP c + TN c) / qn (support m))%Q /\
    error_rate m = (if Nat.eqb (support m) 0 then 0 else 1 - accuracy m)%Q /\
    precision m = (if Nat.eqb (TP c + FP c) 0 then 0
                   else qn (TP c) / qn (TP c + FP c))%Q /\
    recall m = (if Nat.eqb (TP c + FN c) 0 then 0
                else qn (TP c) / qn (TP c + FN c))%Q /\
    f1_score m = (if Qeq_bool (precision m + recall m) 0 then 0
                  else 2 * precision m * recall m / (precision m + recall m))%Q /\
    false_negative_rate m = (if Nat.eqb (TP c + FN c) 0 then 0
                             else qn (FN c) / qn (TP c + FN c))%Q /\
    false_positive_rate m = (if Nat.eqb (TP c + FP c) 0 then 0
                             else qn (FP c) / qn (TP c + FP c))%Q.
Proof.
  exists (metrics_of c). split; [apply compute_metrics_ok|].
  unfold metrics_of; cbn [support accuracy error_rate precision recall
    f1_score false_negative_rate false_positive_rate].
  unfold f1_of, ratio.
  repeat split.
Qed.

(** C9: every rate [compute_metrics] returns (accuracy, error_rate,
    precision, recall, f1_score, false_negative_rate, false_positive_rate)
    lies in the closed interval [0, 1]. *)
Theorem compute_metrics_unit_interval (c : counts) :
  match compute_metrics c with
  | Ok m =>
      (0 <= accuracy m <= 1)%Q /\ (0 <= error_rate m <= 1)%Q /\
      (0 <= precision m <= 1)%Q /\ (0 <= recall m <= 1)%Q /\
      (0 <= f1_score m <= 1)%Q /\ (0 <= false_negative_rate m <= 1)%Q /\
      (0 <= false_positive_rate m <= 1)%Q
  | Raise _ => False
  end.
Proof.
  rewrite compute_metrics_ok. unfold metrics_of; cbn [support accuracy
    error_rate precision recall f1_score false_negative_rate false_positive_rate].
  pose proof (ratio_bounds (TP c + TN c) (TP c + FN c + FP c + TN c)
    ltac:(lia)) as Hacc.
  pose proof (ratio_bounds (TP c) (TP c + FP c) ltac:(lia)) as Hp.
  pose proof (ratio_bounds (TP c) (TP c + FN c) ltac:(lia)) as Hr.
  split; [exact Hacc|]. split.
  { destruct (Nat.eqb _ 0); [split; discriminate|]. destruct Hacc. split; lra. }
  split; [exact Hp|]. split; [exact Hr|]. split; [by apply f1_bounds|].
  split; apply ratio_bounds; lia.
Qed.

(** C5: with tp = |gold ∩ candidate|, fn = |gold − candidate| and
    fp = |candidate − gold|, tp + fn = |gold| and tp + fp = |candidate|,
    both for the comparison of [calculate_counts] (generated = candidate,
    sample = gold) and for that of [calculate_item_metrics]. *)
Theorem comparator_partition {Item : Type} `{Countable Item} (gold cand : gset Item)
    (gold' cand' : gset string) :
  (let '(tp, fn, fp) := set_counts cand gold in
   tp + fn = size gold /\ tp + fp = size cand) /\
  (let '(tp, fn, fp) := ds_counts gold' cand' in
   tp + fn = size gold' /\ tp + fp = size cand').
Proof.
  unfold set_counts, ds_counts. split; split.
  - rewrite intersection_comm_L. apply size_inter_diff.
  - apply size_inter_diff.
  - apply size_inter_diff.
  - rewrite intersection_comm_L. apply size_inter_diff.
Qed.

(** C6: the accumulator's fold (field-wise addition of TP, FN, FP, TN)
    is commutative from the zero counts and associative. *)
Theorem fold_counts_comm_assoc (a b c : counts) :
  fold_counts (fold_counts zero_counts a) b = fold_counts (fold_counts zero_counts b) a /\
  fold_counts (fold_counts a b) c = fold_counts a (fold_counts b c).
Proof.
  destruct a, b, c; unfold fold_counts; simpl.
  split; f_equal; lia.
Qed.

(** C1 (code_bug): a case whose candidate query raises gets its query-level
    FN, but the item-level block after the try/except still runs, on the
    [generated_results] and [sample_results] left by the previous case:
    after [p_ok] (rows {1,2} on both sides) the failing [p_fail] adds 2 to
    the item-level TP of its bucket and of the overall bucket. *)
Theorem failed_query_adds_stale_items :
  calculate_counts demo_query [p_ok] =
    Ok (mkCounts 1 0 0 0, mkCounts 2 0 0 0, [("t1", entry_t1)]) /\
  calculate_counts demo_query [p_ok; p_fail] =
    Ok (mkCounts 1 1 0 0, mkCounts 4 0 0 0,
        [("t1", entry_t1); ("t2", mkEntry (mkCounts 0 1 0 0) (mkCounts 2 0 0 0))]).
Proof. split; vm_compute; reflexivity. Qed.

(** C2 (code_bug): when the first case that reaches the query calls has its
    query raise, the item-level block reads the unbound
    [generated_results]: [calculate_counts] raises [UnboundLocalError] and
    the batch is aborted. *)
Theorem failed_first_query_raises :
  calculate_counts demo_query [p_fail; p_ok] = Raise UnboundLocalError.
Proof. vm_compute. reflexivity. Qed.

(** C4: whenever [calculate_counts] returns, the query-level FP and TN
    counts are 0 in the overall bucket and in every category bucket. *)
Theorem query_level_no_TN_FP {Item : Type} `{Countable Item}
    (safe_query : string -> option (list Item)) (results : list data_point)
    (oq oi : counts) (tc : type_counts) :
  calculate_counts safe_query results = Ok (oq, oi, tc) ->
  FP oq = 0 /\ TN oq = 0 /\
  Forall (fun kv => FP (query_level kv.2) = 0 /\ TN (query_level kv.2) = 0) tc.
Proof.
  unfold calculate_counts. intros Hc.
  destruct (run safe_query (init_state) results) as [r|e] eqn:Hrun;
    [|discriminate].
  cbn in Hc. injection Hc as <- <- <-.
  destruct (run_no_TN_FP safe_query results init_state r Hrun) as [[Hfp Htn] Hall].
  - unfold no_TN_FP; simpl; lia.
  - simpl. constructor.
  - split; [done|]. split; [done|]. exact Hall.
Qed.

Lemma query_level_no_TN_FP_witness :
  calculate_counts demo_query [p_ok; p_fail] =
    Ok (mkCounts 1 1 0 0, mkCounts 4 0 0 0,
        [("t1", entry_t1); ("t2", mkEntry (mkCounts 0 1 0 0) (mkCounts 2 0 0 0))]) /\
  (FP (mkCounts 1 1 0 0) = 0 /\ TN (mkCounts 1 1 0 0) = 0 /\
   Forall (fun kv => FP (query_level kv.2) = 0 /\ TN (query_level kv.2) = 0)
     [("t1", entry_t1); ("t2", mkEntry (mkCounts 0 1 0 0) (mkCounts 2 0 0 0))]).
Proof.
  split; [vm_compute; reflexivity|].
  apply (query_level_no_TN_FP demo_query [p_ok; p_fail] (mkCounts 1 1 0 0)
           (mkCounts 4 0 0 0)).
  vm_compute. reflexivity.
Defined.

(** C7 (counterexample): a case with an empty candidate query is not
    counted as a query-level FN: the overall FN stays 0. *)
Lemma malformed_case_not_FN :
  ~ (exists oq oi tc, calculate_counts demo_query [p_empty] = Ok (oq, oi, tc) /\
                      FN oq = 1).
Proof.
  intros (oq & oi & tc & Hc & Hfn).
  vm_compute in Hc. injection Hc as <- <- <-. discriminate.
Qed.

(** C7 (amended): a case whose candidate query ([sparql_response], else
    [generated_sparql]) or gold query ([sparql]) is absent or empty is
    skipped: no query-level or item-level count of any bucket changes; the
    only effect is that its category bucket is created, with zero counts,
    if it did not exist. *)
Theorem skipped_case_only_creates_bucket {Item : Type} `{Countable Item}
    (safe_query : string -> option (list Item)) (st : loop_state) (dp : data_point) :
  skipped dp = true ->
  process_point safe_query st dp =
    Ok (mkState (overall_query st) (overall_item st)
          (ensure_type (qtype_of dp) (tcounts st))
          (generated_results st) (sample_results st)).
Proof.
  unfold skipped, process_point. intros Hs.
  destruct (truthy (candidate_query dp)) eqn:Ec;
    destruct (truthy (dp_sparql dp)) eqn:Eq; simpl in Hs; try discriminate.
  - rewrite (truthy_str_none _ Eq).
    by destruct (truthy_str (candidate_query dp)).
  - by rewrite (truthy_str_none _ Ec).
  - by rewrite (truthy_str_none _ Ec).
Qed.

Lemma skipped_case_only_creates_bucket_witness :
  skipped p_empty = true /\
  process_point demo_query init_state p_empty =
    Ok (mkState zero_counts zero_counts (ensure_type "t3" [])
          None None).
Proof.
  split; [reflexivity|].
  apply (skipped_case_only_creates_bucket demo_query init_state p_empty).
  reflexivity.
Defined.


(** C10: a category all of whose cases are skipped for a missing query
    still gets its bucket (created before the query check): whenever
    [calculate_counts] returns, that category maps to all-zero counts, and
    the per-type analysis of [main] lists it with all metrics and averages
    0. *)
Theorem skipped_category_reported {Item : Type} `{Countable Item}
    (safe_query : string -> option (list Item)) (results : list data_point)
    (oq oi : counts) (tc : type_counts) (k : string) :
  calculate_counts safe_query results = Ok (oq, oi, tc) ->
  In k (map qtype_of results) ->
  (forall dp, In dp results -> qtype_of dp = k -> skipped dp = true) ->
  lookup_type k tc = Some zero_entry /\
  In (k, analyse zero_entry) (per_type_analysis tc) /\
  analyse zero_entry =
    mkAnalysis zero_counts (Ok zero_metrics) zero_counts (Ok zero_metrics)
      (mkAvg 0 0 0 0).
Proof.
  unfold calculate_counts. intros Hc Hin Hskip.
  destruct (run safe_query init_state results) as [r|e] eqn:Hrun;
    [|discriminate].
  cbn in Hc. injection Hc as <- <- <-.
  assert (Hlk : lookup_type k (tcounts r) = Some zero_entry).
  { rewrite (run_lookup safe_query k results init_state r Hrun Hskip).
    assert (Hex : existsb (String.eqb k) (map qtype_of results) = true).
    { apply existsb_exists. exists k. split; [done|]. apply String.eqb_refl. }
    by rewrite Hex. }
  split; [done|]. split; [by apply lookup_in_analysis|].
  vm_compute. reflexivity.
Qed.

Lemma skipped_category_reported_witness :
  calculate_counts demo_query [p_empty; p_ok] =
    Ok (mkCounts 1 0 0 0, mkCounts 2 0 0 0, [("t3", zero_entry); ("t1", entry_t1)]) /\
  In "t3" (map qtype_of [p_empty; p_ok]) /\
  (forall dp, In dp [p_empty; p_ok] -> qtype_of dp = "t3" -> skipped dp = true) /\
  (lookup_type "t3" [("t3", zero_entry); ("t1", entry_t1)] = Some zero_entry /\
   In ("t3", analyse zero_entry) (per_type_analysis [("t3", zero_entry); ("t1", entry_t1)]) /\
   analyse zero_entry =
     mkAnalysis zero_counts (Ok zero_metrics) zero_counts (Ok zero_metrics)
       (mkAvg 0 0 0 0)).
Proof.
  assert (Hc : calculate_counts demo_query [p_empty; p_ok] =
    Ok (mkCounts 1 0 0 0, mkCounts 2 0 0 0, [("t3", zero_entry); ("t1", entry_t1)]))
    by (vm_compute; reflexivity).
  assert (Hin : In "t3" (map qtype_of [p_empty; p_ok])) by (simpl; left; reflexivity).
  assert (Hs : forall dp, In dp [p_empty; p_ok] -> qtype_of dp = "t3" -> skipped dp = true).
  { intros dp [<-|[<-|[]]]; vm_compute; [reflexivity|discriminate]. }
  split; [exact Hc|]. split; [exact Hin|]. split; [exact Hs|].
  exact (skipped_category_reported demo_query [p_empty; p_ok]
           (mkCounts 1 0 0 0) (mkCounts 2 0 0 0) _ "t3" Hc Hin Hs).
Defined.

(** ** Further properties of the metrics *)

Lemma qn_add (a b : nat) : (qn (a + b) == qn a + qn b)%Q.
Proof. unfold qn. rewrite Nat2Z.inj_add, inject_Z_plus. reflexivity. Qed.

Lemma qn_nonneg (a : nat) : (0 <= qn a)%Q.
Proof. unfold qn, Qle; simpl. lia. Qed.

Lemma qn_pos (a : nat) : a <> 0 -> (0 < qn a)%Q.
Proof. intros Ha. unfold qn, Qlt; simpl. lia. Qed.

Lemma ratio_complement (a c b : nat) :
  a + c = b -> b <> 0 -> (qn a / qn b + qn c / qn b == 1)%Q.
Proof.
  intros Hb Hnz.
  assert (E : qn b == qn a + qn c) by (subst; apply qn_add).
  assert (Hq : ~ qn a + qn c == 0).
  { rewrite <- E. pose proof (qn_pos b Hnz). lra. }
  rewrite E. field. exact Hq.
Qed.

Lemma ratio_zero_l (b : nat) : (ratio 0 b == 0)%Q.
Proof. unfold ratio. destruct (Nat.eqb b 0); [reflexivity|]. unfold Qdiv. apply Qmult_0_l. Qed.

Lemma ds_compute_metrics_ok (c : counts3) :
  ds_compute_metrics c =
    Ok (mkDsMetrics (ratio (dTP c) (dTP c + dFP c)) (ratio (dTP c) (dTP c + dFN c))
          (f1_of (ratio (dTP c) (dTP c + dFP c)) (ratio (dTP c) (dTP c + dFN c)))
          (dTP c) (dFN c) (dFP c)).
Proof.
  unfold ds_compute_metrics.
  rewrite !guarded_div. cbn [mbind py_mbind].
  rewrite guarded_f1. reflexivity.
Qed.

(** The rates computed by [compute_metrics] pair up: accuracy and
    error_rate sum to 1, precision and false_positive_rate sum to 1, recall
    and false_negative_rate sum to 1, except where the shared denominator
    is 0, where both members are 0. *)
Theorem metrics_complements (c : counts) :
  match compute_metrics c with
  | Ok m =>
      (accuracy m + error_rate m ==
        (if Nat.eqb (TP c + FN c + FP c + TN c) 0 then 0 else 1))%Q /\
      (precision m + false_positive_rate m ==
        (if Nat.eqb (TP c + FP c) 0 then 0 else 1))%Q /\
      (recall m + false_negative_rate m ==
        (if Nat.eqb (TP c + FN c) 0 then 0 else 1))%Q
  | Raise _ => False
  end.
Proof.
  rewrite compute_metrics_ok. unfold metrics_of; cbn [accuracy error_rate
    precision recall false_negative_rate false_positive_rate].
  unfold ratio. split; [|split].
  - destruct (Nat.eqb (TP c + FN c + FP c + TN c) 0); [reflexivity|ring].
  - destruct (Nat.eqb (TP c + FP c) 0) eqn:E; [reflexivity|].
    apply Nat.eqb_neq in E. apply ratio_complement; [lia|done].
  - destruct (Nat.eqb (TP c + FN c) 0) eqn:E; [reflexivity|].
    apply Nat.eqb_neq in E. apply ratio_complement; [lia|done].
Qed.

(** The f1_score of [compute_metrics] is 0 when TP is 0 and strictly
    positive otherwise. *)
Theorem f1_zero_iff_no_TP (c : counts) :
  match compute_metrics c with
  | Ok m => if Nat.eqb (TP c) 0 then (f1_score m == 0)%Q else (0 < f1_score m)%Q
  | Raise _ => False
  end.
Proof.
  rewrite compute_metrics_ok. unfold metrics_of; cbn [f1_score].
  unfold f1_of.
  destruct (Nat.eqb (TP c) 0) eqn:Et.
  - apply Nat.eqb_eq in Et. rewrite Et.
    assert (Hz : (ratio 0 (0 + FP c) + ratio 0 (0 + FN c) == 0)%Q).
    { rewrite !ratio_zero_l. reflexivity. }
    by rewrite (Qeq_eq_bool _ _ Hz).
  - apply Nat.eqb_neq in Et. unfold ratio.
    assert (Ep : Nat.eqb (TP c + FP c) 0 = false) by (apply Nat.eqb_neq; lia).
    assert (En : Nat.eqb (TP c + FN c) 0 = false) by (apply Nat.eqb_neq; lia).
    rewrite Ep, En.
    pose proof (qn_pos _ Et) as Ht.
    pose proof (qn_nonneg (FP c)) as Hp.
    pose proof (qn_nonneg (FN c)) as Hn.
    assert (H1 : (0 < qn (TP c) / qn (TP c + FP c))%Q).
    { rewrite qn_add. apply Qlt_shift_div_l; lra. }
    assert (H2 : (0 < qn (TP c) / qn (TP c + FN c))%Q).
    { rewrite qn_add. apply Qlt_shift_div_l; lra. }
    destruct (Qeq_bool _ 0) eqn:Hz.
    { apply Qeq_bool_iff in Hz. lra. }
    apply Qlt_shift_div_l; [lra|]. rewrite Qmult_0_l. nra.
Qed.

(** On counts of the query-level shape (FP = TN = 0, the only shape
    [calculate_counts] produces at query level), precision is 1 (0 without
    any TP), false_positive_rate is 0 and accuracy equals recall. *)
Theorem query_shape_metrics (tp fn : nat) :
  match compute_metrics (mkCounts tp fn 0 0) with
  | Ok m =>
      (precision m == (if Nat.eqb tp 0 then 0 else 1))%Q /\
      (false_positive_rate m == 0)%Q /\
      accuracy m = recall m
  | Raise _ => False
  end.
Proof.
  rewrite compute_metrics_ok. unfold metrics_of; cbn [TP FN FP TN accuracy
    error_rate precision recall false_negative_rate false_positive_rate].
  rewrite !Nat.add_0_r. split; [|split].
  - unfold ratio. destruct (Nat.eqb tp 0) eqn:E; [reflexivity|].
    apply Nat.eqb_neq in E. pose proof (qn_pos tp E).
    field. lra.
  - apply ratio_zero_l.
  - reflexivity.
Qed.

(** The [compute_metrics] of the DeepSeek script agrees with that of
    run_metrics_to_csv.py on the metrics they share: on counts TP, FN, FP
    (TN = 0) both return the same precision, recall and f1_score, and
    neither raises. *)
Theorem ds_metrics_agree (tp fn fp : nat) :
  match ds_compute_metrics (mkCounts3 tp fn fp), compute_metrics (mkCounts tp fn fp 0) with
  | Ok dm, Ok m =>
      ds_precision dm = precision m /\ ds_recall dm = recall m /\
      ds_f1_score dm = f1_score m /\
      ds_TP dm = tp /\ ds_FN dm = fn /\ ds_FP dm = fp
  | _, _ => False
  end.
Proof.
  rewrite ds_compute_metrics_ok, compute_metrics_ok. simpl.
  repeat split.
Qed.

(** ** The CSV report *)

Lemma type_rows_ok (k : string) (e : type_entry) :
  exists rs, type_rows k (analyse e) = Ok rs /\ length rs = 28.
Proof.
  unfold type_rows, analyse; cbn [query_level_metrics item_level_metrics].
  rewrite !compute_metrics_ok. cbn [mbind py_mbind].
  eexists; split; [reflexivity|]. reflexivity.
Qed.

Lemma all_type_rows_ok (tc : type_counts) :
  exists rs, all_type_rows (per_type_analysis tc) = Ok rs /\
             length rs = 28 * length tc.
Proof.
  induction tc as [|[k e] rest IH]; simpl.
  - by exists [].
  - destruct (type_rows_ok k e) as [r [Hr Hlr]].
    destruct IH as [rs [Hrs Hl]].
    rewrite Hr. cbn [mbind py_mbind]. rewrite Hrs. cbn [mbind py_mbind].
    eexists; split; [reflexivity|]. rewrite length_app. lia.
Qed.

(** The CSV that [main] writes has a header row, then 28 rows per
    question type (4 query-level counts, 8 query-level metrics, 4
    item-level counts, 8 item-level metrics, 4 averages), then 28 overall
    rows; building it never raises. *)
Theorem csv_report_layout (oq oi : counts) (tc : type_counts) :
  match csv_report oq oi tc with
  | Ok rows => length rows = 1 + 28 * (length tc + 1) /\ head rows = Some header_row
  | Raise _ => False
  end.
Proof.
  unfold csv_report. rewrite !compute_metrics_ok. cbn [mbind py_mbind].
  destruct (all_type_rows_ok tc) as [rs [Hrs Hl]].
  rewrite Hrs. cbn [mbind py_mbind]. split; [|reflexivity].
  cbn [length]. rewrite !length_app, Hl. simpl. lia.
Qed.

(** ** More lemmas on the loop of [calculate_counts] *)

Ltac counts_eq :=
  repeat match goal with c : counts |- _ => destruct c end;
  unfold fold_counts; simpl; f_equal; lia.

Lemma fold_counts_zero_r (c : counts) : fold_counts c zero_counts = c.
Proof. counts_eq. Qed.

Lemma lookup_update (k q : string) f (tc : type_counts) :
  lookup_type k (update_type q f tc) =
  if String.eqb k q then option_map f (lookup_type k tc) else lookup_type k tc.
Proof.
  destruct (String.eqb_spec k q) as [->|Hne]; [|by apply lookup_update_ne].
  induction tc as [|[k0 v0] rest IH]; simpl; [done|].
  destruct (String.eqb_spec q k0) as [->|Hn]; simpl.
  - by rewrite String.eqb_refl.
  - apply String.eqb_neq in Hn. rewrite Hn. exact IH.
Qed.

Lemma keys_update (q : string) f (tc : type_counts) :
  map fst (update_type q f tc) = map fst tc.
Proof.
  induction tc as [|[k0 v0] rest IH]; simpl; [done|].
  destruct (String.eqb q k0); simpl; [done|]. by rewrite IH.
Qed.

Lemma lookup_none_keys (q : string) (tc : type_counts) :
  lookup_type q tc = None <-> existsb (String.eqb q) (map fst tc) = false.
Proof.
  induction tc as [|[k0 v0] rest IH]; simpl; [done|].
  destruct (String.eqb q k0); simpl; [split; discriminate|exact IH].
Qed.

Lemma keys_ensure (q : string) (tc : type_counts) :
  map fst (ensure_type q tc) =
  if existsb (String.eqb q) (map fst tc) then map fst tc else map fst tc ++ [q].
Proof.
  unfold ensure_type.
  destruct (lookup_type q tc) eqn:E.
  - destruct (existsb (String.eqb q) (map fst tc)) eqn:E2; [done|].
    apply lookup_none_keys in E2. congruence.
  - apply lookup_none_keys in E. rewrite E, map_app. done.
Qed.

Lemma bucket_sum_ensure (f : type_entry -> counts) (q : string) (tc : type_counts) :
  f zero_entry = zero_counts -> bucket_sum f (ensure_type q tc) = bucket_sum f tc.
Proof.
  intros Hz. unfold ensure_type. destruct (lookup_type q tc); [done|].
  unfold bucket_sum. rewrite fold_right_app. simpl. rewrite Hz. done.
Qed.

Lemma bucket_sum_update (f : type_entry -> counts) (g : type_entry -> type_entry)
    (d : counts) (q : string) (tc : type_counts) :
  (forall e, f (g e) = fold_counts (f e) d) ->
  lookup_type q tc <> None ->
  bucket_sum f (update_type q g tc) = fold_counts (bucket_sum f tc) d.
Proof.
  intros Hg. induction tc as [|[k0 v0] rest IH]; simpl; [done|].
  destruct (String.eqb q k0); simpl; intros Hl.
  - rewrite Hg. fold (bucket_sum f rest). counts_eq.
  - fold (bucket_sum f rest). fold (bucket_sum f (update_type q g rest)).
    rewrite IH by done. counts_eq.
Qed.

Lemma lookup_ensure_some (q : string) (tc : type_counts) :
  lookup_type q (ensure_type q tc) <> None.
Proof. rewrite lookup_ensure, String.eqb_refl. discriminate. Qed.

Lemma lookup_update_some (k q : string) f (tc : type_counts) :
  lookup_type k tc <> None -> lookup_type k (update_type q f tc) <> None.
Proof.
  rewrite lookup_update. destruct (String.eqb k q); [|done].
  destruct (lookup_type k tc); [discriminate|done].
Qed.

Lemma truthy_str_none_inv (v : option string) :
  truthy_str v = None -> truthy v = false.
Proof.
  unfold truthy_str. destruct (truthy v) eqn:E; [|done].
  intros ->. discriminate E.
Qed.

Section Loop2.

Context {Item : Type} `{Countable Item}.
Variable safe_query : string -> option (list Item).

Lemma try_block_matched (sr sq : string) gen smp :
  (try_block safe_query sr sq gen smp).2 =
  match safe_query sr, safe_query sq with
  | Some g, Some s => bool_decide ((list_to_set g : gset Item) = list_to_set s)
  | _, _ => false
  end.
Proof.
  unfold try_block. destruct (safe_query sr), (safe_query sq); reflexivity.
Qed.

(** What one successful iteration does to the counts. *)
Lemma process_point_shape (st st' : loop_state) (dp : data_point) :
  process_point safe_query st dp = Ok st' ->
  let q := qtype_of dp in
  (skipped dp = true /\
   overall_query st' = overall_query st /\ overall_item st' = overall_item st /\
   tcounts st' = ensure_type q (tcounts st) /\
   generated_results st' = generated_results st /\
   sample_results st' = sample_results st) \/
  (skipped dp = false /\
   exists t : nat * nat * nat,
   let bump := if query_matches safe_query dp then add_TP else add_FN in
   overall_query st' = bump (overall_query st) /\
   overall_item st' = add_items (overall_item st) t /\
   tcounts st' = update_type q (entry_item (fun c => add_items c t))
                   (update_type q (entry_query bump) (ensure_type q (tcounts st)))).
Proof.
  intros Hstep q. unfold process_point in Hstep.
  destruct (truthy_str (candidate_query dp)) as [sr|] eqn:Hc;
    destruct (truthy_str (dp_sparql dp)) as [sq|] eqn:Hs.
  2-4: left; injection Hstep as <-; simpl; repeat split; unfold skipped;
       repeat match goal with
       | E : truthy_str _ = None |- _ => apply truthy_str_none_inv in E; rewrite E
       end; by rewrite ?andb_false_r.
  right. split.
  { unfold skipped. by rewrite (truthy_str_some _ _ Hc), (truthy_str_some _ _ Hs). }
  assert (Hm : query_matches safe_query dp =
               (try_block safe_query sr sq (generated_results st) (sample_results st)).2).
  { rewrite try_block_matched. unfold query_matches. by rewrite Hc, Hs. }
  rewrite Hm.
  destruct (try_block safe_query sr sq (generated_results st) (sample_results st))
    as [[gen smp] matched].
  destruct gen as [g|], smp as [s|]; try discriminate.
  injection Hstep as <-. exists (set_counts g s). repeat split.
Qed.

End Loop2.

Lemma count_if_cons {X} (p : X -> bool) x l :
  count_if p (x :: l) = (if p x then 1 else 0) + count_if p l.
Proof. unfold count_if. rewrite filter_cons. destruct (p x); simpl; reflexivity. Qed.

Lemma count_if_nil {X} (p : X -> bool) : count_if p [] = 0.
Proof. reflexivity. Qed.

Section Loop3.

Context {Item : Type} `{Countable Item}.
Variable safe_query : string -> option (list Item).

Lemma skipped_not_matches (dp : data_point) :
  skipped dp = true -> query_matches safe_query dp = false.
Proof.
  unfold skipped, query_matches.
  destruct (truthy_str (candidate_query dp)) as [sr|] eqn:Hc; [|done].
  destruct (truthy_str (dp_sparql dp)) as [sq|] eqn:Hs; [|done].
  by rewrite (truthy_str_some _ _ Hc), (truthy_str_some _ _ Hs).
Qed.

Lemma run_cons (st : loop_state) (dp : data_point) (rest : list data_point) r :
  run safe_query st (dp :: rest) = Ok r ->
  exists st', process_point safe_query st dp = Ok st' /\ run safe_query st' rest = Ok r.
Proof.
  simpl. destruct (process_point safe_query st dp) as [st'|e]; [|discriminate].
  intros Hr. by exists st'.
Qed.

Lemma run_invariant (P : loop_state -> Prop) :
  (forall st st' dp, process_point safe_query st dp = Ok st' -> P st -> P st') ->
  forall results st r, run safe_query st results = Ok r -> P st -> P r.
Proof.
  intros Hstep results. induction results as [|dp rest IH]; intros st r Hrun HP.
  - simpl in Hrun. by injection Hrun as <-.
  - destruct (run_cons st dp rest r Hrun) as (st' & Hs & Hr).
    exact (IH st' r Hr (Hstep st st' dp Hs HP)).
Qed.

(** The overall counts are the sums of the per-type buckets. *)
Definition sums_inv (st : loop_state (Item:=Item)) : Prop :=
  overall_query st = bucket_sum query_level (tcounts st) /\
  overall_item st = bucket_sum item_level (tcounts st).

Lemma process_point_sums (st st' : loop_state) (dp : data_point) :
  process_point safe_query st dp = Ok st' -> sums_inv st -> sums_inv st'.
Proof.
  intros Hstep [Hq Hi].
  destruct (process_point_shape safe_query st st' dp Hstep)
    as [(_ & Eq & Ei & Et & _)|(_ & [[tp fn] fp] & Eq & Ei & Et)];
    unfold sums_inv; rewrite Eq, Ei, Et.
  - rewrite !bucket_sum_ensure by reflexivity. done.
  - set (q := qtype_of dp).
    assert (Hl1 : lookup_type q (ensure_type q (tcounts st)) <> None)
      by apply lookup_ensure_some.
    assert (Hl2 : forall g, lookup_type q (update_type q g (ensure_type q (tcounts st))) <> None)
      by (intros; by apply lookup_update_some).
    set (d := if query_matches safe_query dp then mkCounts 1 0 0 0 else mkCounts 0 1 0 0).
    assert (Hb : forall c, (if query_matches safe_query dp then add_TP else add_FN) c =
                           fold_counts c d)
      by (intros; unfold d; by destruct (query_matches safe_query dp)).
    split.
    + rewrite (bucket_sum_update query_level _ zero_counts)
        by (done || (intros; simpl; symmetry; apply fold_counts_zero_r)).
      rewrite (bucket_sum_update query_level _ d) by (done || (intros; apply Hb)).
      by rewrite fold_counts_zero_r, bucket_sum_ensure, Hb, Hq.
    + rewrite (bucket_sum_update item_level _ (mkCounts tp fn fp 0)) by done.
      rewrite (bucket_sum_update item_level _ zero_counts)
        by (done || (intros; simpl; symmetry; apply fold_counts_zero_r)).
      by rewrite fold_counts_zero_r, bucket_sum_ensure, Hi.
Qed.

(** Item-level true negatives are never counted. *)
Definition item_TN_inv (st : loop_state (Item:=Item)) : Prop :=
  TN (overall_item st) = 0 /\ Forall (fun kv => TN (item_level kv.2) = 0) (tcounts st).

Lemma process_point_item_TN (st st' : loop_state) (dp : data_point) :
  process_point safe_query st dp = Ok st' -> item_TN_inv st -> item_TN_inv st'.
Proof.
  intros Hstep [Ho Hf].
  destruct (process_point_shape safe_query st st' dp Hstep)
    as [(_ & _ & Ei & Et & _)|(_ & [[tp fn] fp] & _ & Ei & Et)];
    unfold item_TN_inv; rewrite Ei, Et.
  - split; [done|]. by apply (Forall_ensure (fun e => TN (item_level e) = 0)).
  - split; [simpl; lia|].
    apply (Forall_update (fun e => TN (item_level e) = 0)); [simpl; lia|].
    apply (Forall_update (fun e => TN (item_level e) = 0)); [done|].
    by apply (Forall_ensure (fun e => TN (item_level e) = 0)).
Qed.

(** The bucket keys after one iteration. *)
Lemma process_point_keys (st st' : loop_state) (dp : data_point) :
  process_point safe_query st dp = Ok st' ->
  map fst (tcounts st') =
  (fun seen x => if existsb (String.eqb x) seen then seen else seen ++ [x])
    (map fst (tcounts st)) (qtype_of dp).
Proof.
  intros Hstep.
  destruct (process_point_shape safe_query st st' dp Hstep)
    as [(_ & _ & _ & Et & _)|(_ & t & _ & _ & Et)]; rewrite Et.
  - apply keys_ensure.
  - rewrite !keys_update. apply keys_ensure.
Qed.

Lemma run_keys (results : list data_point) :
  forall st r, run safe_query st results = Ok r ->
  map fst (tcounts r) =
  fold_left (fun seen x => if existsb (String.eqb x) seen then seen else seen ++ [x])
    (map qtype_of results) (map fst (tcounts st)).
Proof.
  induction results as [|dp rest IH]; intros st r Hrun.
  - simpl in Hrun. by injection Hrun as <-.
  - destruct (run_cons st dp rest r Hrun) as (st' & Hs & Hr).
    simpl. rewrite (IH st' r Hr). by rewrite (process_point_keys st st' dp Hs).
Qed.

Lemma process_point_overall (st st' : loop_state) (dp : data_point) :
  process_point safe_query st dp = Ok st' ->
  TP (overall_query st') =
    TP (overall_query st) + (if query_matches safe_query dp then 1 else 0) /\
  FN (overall_query st') =
    FN (overall_query st) +
    (if negb (skipped dp) && negb (query_matches safe_query dp) then 1 else 0).
Proof.
  intros Hstep.
  destruct (process_point_shape safe_query st st' dp Hstep)
    as [(Hsk & Eq & _)|(Hsk & t & Eq & _)]; rewrite Eq, Hsk.
  - rewrite (skipped_not_matches dp Hsk). simpl. lia.
  - destruct (query_matches safe_query dp); simpl; lia.
Qed.

Lemma bucket_step (k : string) (st st' : loop_state) (dp : data_point) :
  process_point safe_query st dp = Ok st' ->
  query_level (bucket k (tcounts st')) =
  if String.eqb k (qtype_of dp) && negb (skipped dp)
  then (if query_matches safe_query dp then add_TP else add_FN)
         (query_level (bucket k (tcounts st)))
  else query_level (bucket k (tcounts st)).
Proof.
  intros Hstep. unfold bucket.
  destruct (process_point_shape safe_query st st' dp Hstep)
    as [(Hsk & _ & _ & Et & _)|(Hsk & t & _ & _ & Et)]; rewrite Et, Hsk.
  - rewrite lookup_ensure, andb_false_r.
    by destruct (String.eqb k (qtype_of dp)), (lookup_type k (tcounts st)).
  - rewrite !lookup_update, lookup_ensure, andb_true_r.
    by destruct (String.eqb k (qtype_of dp)).
Qed.

Lemma run_overall (results : list data_point) :
  forall st r, run safe_query st results = Ok r ->
  TP (overall_query r) =
    TP (overall_query st) + count_if (query_matches safe_query) results /\
  FN (overall_query r) =
    FN (overall_query st) +
    count_if (fun dp => negb (skipped dp) && negb (query_matches safe_query dp)) results.
Proof.
  induction results as [|dp rest IH]; intros st r Hrun.
  - simpl in Hrun. injection Hrun as <-. rewrite !count_if_nil. lia.
  - destruct (run_cons st dp rest r Hrun) as (st' & Hs & Hr).
    destruct (IH st' r Hr) as [E1 E2].
    destruct (process_point_overall st st' dp Hs) as [F1 F2].
    rewrite !count_if_cons, E1, E2, F1, F2.
    destruct (query_matches safe_query dp), (skipped dp); simpl; lia.
Qed.

Lemma run_bucket (k : string) (results : list data_point) :
  forall st r, run safe_query st results = Ok r ->
  TP (query_level (bucket k (tcounts r))) =
    TP (query_level (bucket k (tcounts st))) +
    count_if (fun dp => String.eqb k (qtype_of dp) && query_matches safe_query dp) results /\
  FN (query_level (bucket k (tcounts r))) =
    FN (query_level (bucket k (tcounts st))) +
    count_if (fun dp => String.eqb k (qtype_of dp) && negb (skipped dp) &&
                        negb (query_matches safe_query dp)) results.
Proof.
  induction results as [|dp rest IH]; intros st r Hrun.
  - simpl in Hrun. injection Hrun as <-. rewrite !count_if_nil. lia.
  - destruct (run_cons st dp rest r Hrun) as (st' & Hs & Hr).
    destruct (IH st' r Hr) as [E1 E2].
    pose proof (bucket_step k st st' dp Hs) as F.
    rewrite !count_if_cons, E1, E2, F.
    destruct (String.eqb k (qtype_of dp)), (skipped dp) eqn:Hsk; simpl; try lia;
      try (rewrite (skipped_not_matches dp Hsk); simpl; lia);
      destruct (query_matches safe_query dp); simpl; lia.
Qed.

End Loop3.

Lemma gset_eq_diffs {A : Type} `{Countable A} (X Y : gset A) :
  X = Y <-> size (Y ∖ X) = 0 /\ size (X ∖ Y) = 0.
Proof.
  split.
  - intros ->. by rewrite difference_diag_L, size_empty.
  - intros [E1 E2]. apply size_empty_iff in E1, E2.
    apply set_eq. intros x. split; intros Hx.
    + destruct (decide (x ∈ Y)) as [|Hn]; [done|].
      assert (x ∈ X ∖ Y) by set_solver. rewrite E2 in *. set_solver.
    + destruct (decide (x ∈ X)) as [|Hn]; [done|].
      assert (x ∈ Y ∖ X) by set_solver. rewrite E1 in *. set_solver.
Qed.

Section Loop4.

Context {Item : Type} `{Countable Item}.
Variable safe_query : string -> option (list Item).

Lemma run_cons_eq (st : loop_state) (dp : data_point) (rest : list data_point) :
  run safe_query st (dp :: rest) =
  match process_point safe_query st dp with
  | Ok st' => run safe_query st' rest
  | Raise e => Raise e
  end.
Proof. reflexivity. Qed.

Lemma process_point_bound (st : loop_state) (dp : data_point) :
  vars_bound st ->
  exists st', process_point safe_query st dp = Ok st' /\ vars_bound st'.
Proof.
  intros [[g Hg] [s Hs]]. unfold process_point, try_block. rewrite Hg, Hs.
  destruct (truthy_str (candidate_query dp)) as [sr|], (truthy_str (dp_sparql dp)) as [sq|];
    try (destruct (safe_query sr), (safe_query sq));
    eexists; (split; [reflexivity|]); unfold vars_bound; simpl; rewrite ?Hg, ?Hs; done.
Qed.

Lemma run_bound (results : list data_point) :
  forall st, vars_bound st -> exists r, run safe_query st results = Ok r.
Proof.
  induction results as [|dp rest IH]; intros st Hb; [by eexists|].
  destruct (process_point_bound st dp Hb) as (st' & Hp & Hb').
  rewrite run_cons_eq, Hp. by apply IH.
Qed.

(** One iteration while [generated_results] and [sample_results] are unbound. *)
Lemma process_point_unbound (st : loop_state) (dp : data_point) :
  generated_results st = None -> sample_results st = None ->
  (skipped dp = true /\ exists st', process_point safe_query st dp = Ok st' /\
     generated_results st' = None /\ sample_results st' = None) \/
  (skipped dp = false /\ queries_run safe_query dp = true /\
     exists st', process_point safe_query st dp = Ok st' /\ vars_bound st') \/
  (skipped dp = false /\ queries_run safe_query dp = false /\
     process_point safe_query st dp = Raise UnboundLocalError).
Proof.
  intros Hg Hs. unfold skipped, queries_run, process_point, try_block.
  rewrite Hg, Hs.
  destruct (truthy_str (candidate_query dp)) as [sr|] eqn:Hc;
    destruct (truthy_str (dp_sparql dp)) as [sq|] eqn:Hq;
    repeat match goal with
    | E : truthy_str _ = None |- _ => apply truthy_str_none_inv in E; rewrite E
    | E : truthy_str _ = Some _ |- _ => apply truthy_str_some in E; rewrite E
    end; rewrite ?andb_false_r.
  2-4: left; split; [done|]; by eexists.
  right. destruct (safe_query sr), (safe_query sq); simpl.
  - left. repeat split. eexists. split; [reflexivity|]. split; by eexists.
  - right. done.
  - right. done.
  - right. done.
Qed.

Lemma run_raise_unbound (results : list data_point) :
  forall st (e : PyExc),
  generated_results st = None -> sample_results st = None ->
  run safe_query st results = Raise e <->
  e = UnboundLocalError /\
  exists pre dp post, results = pre ++ dp :: post /\
    Forall (fun d => skipped d = true) pre /\
    skipped dp = false /\ queries_run safe_query dp = false.
Proof.
  intros st e Hg Hs. split.
  - revert st Hg Hs. induction results as [|dp rest IH]; intros st Hg Hs Hrun;
      [discriminate|].
    rewrite run_cons_eq in Hrun.
    destruct (process_point_unbound st dp Hg Hs)
      as [(Hsk & st' & Hp & Hg' & Hs')|[(Hsk & Hq & st' & Hp & Hb)|(Hsk & Hq & Hp)]];
      rewrite Hp in Hrun.
    + destruct (IH st' Hg' Hs' Hrun) as (He & pre & dp' & post & -> & Hpre & Hsk' & Hq').
      split; [done|]. exists (dp :: pre), dp', post. repeat split; try done.
      by constructor.
    + destruct (run_bound rest st' Hb) as [r Hr]. congruence.
    + injection Hrun as <-. split; [done|].
      exists [], dp, rest. by repeat split.
  - intros (-> & pre & dp & post & -> & Hpre & Hsk & Hq).
    revert st Hg Hs. induction Hpre as [|d pre Hd Hpre IH]; intros st Hg Hs; cbn [app];
      rewrite run_cons_eq.
    + destruct (process_point_unbound st dp Hg Hs)
        as [(Hsk' & st' & Hp & Hg' & Hs')|[(Hsk' & Hq' & st' & Hp & Hb)|(Hsk' & Hq' & Hp)]];
        try congruence.
      by rewrite Hp.
    + destruct (process_point_unbound st d Hg Hs)
        as [(Hsk' & st' & Hp & Hg' & Hs')|[(Hsk' & Hq' & st' & Hp & Hb)|(Hsk' & Hq' & Hp)]];
        try congruence.
      rewrite Hp. by apply IH.
Qed.

(** One iteration in which both queries run. *)
Lemma process_point_both_run (st : loop_state) (dp : data_point) (sr sq : string)
    (g s : list Item) :
  truthy_str (candidate_query dp) = Some sr -> truthy_str (dp_sparql dp) = Some sq ->
  safe_query sr = Some g -> safe_query sq = Some s ->
  exists st' tp fn fp,
    process_point safe_query st dp = Ok st' /\
    overall_item st' = add_items (overall_item st) (tp, fn, fp) /\
    tp + fn = size (list_to_set s : gset Item) /\
    overall_query st' =
      (if bool_decide (fn + fp = 0) then add_TP else add_FN) (overall_query st).
Proof.
  intros Hc Hq Hg Hs. unfold process_point, try_block.
  rewrite Hc, Hq, Hg, Hs. simpl.
  set (gs := list_to_set g : gset Item). set (ss := list_to_set s : gset Item).
  eexists _, (size (gs ∩ ss)), (size (ss ∖ gs)), (size (gs ∖ ss)).
  split; [reflexivity|]. split; [reflexivity|]. split.
  - rewrite intersection_comm_L. apply size_inter_diff.
  - simpl. f_equal.
    destruct (bool_decide_reflect (gs = ss)) as [E|E],
      (bool_decide_reflect (size (ss ∖ gs) + size (gs ∖ ss) = 0)) as [F|F];
      try reflexivity.
    + exfalso. apply F. apply gset_eq_diffs in E. lia.
    + exfalso. apply E. apply gset_eq_diffs. lia.
Qed.

End Loop4.

Lemma calculate_counts_run {Item : Type} `{Countable Item}
    (safe_query : string -> option (list Item)) (results : list data_point) oq oi tc :
  calculate_counts safe_query results = Ok (oq, oi, tc) ->
  exists r, run safe_query init_state results = Ok r /\
    overall_query r = oq /\ overall_item r = oi /\ tcounts r = tc.
Proof.
  unfold calculate_counts. destruct (run safe_query init_state results) as [r|e];
    simpl; [|discriminate].
  intros Hc. injection Hc as <- <- <-. by exists r.
Qed.

Lemma calculate_counts_raise {Item : Type} `{Countable Item}
    (safe_query : string -> option (list Item)) (results : list data_point) e :
  calculate_counts safe_query results = Raise e <->
  run safe_query init_state results = Raise e.
Proof.
  unfold calculate_counts. destruct (run safe_query init_state results); simpl;
    split; intros E; (discriminate || (injection E as ->; reflexivity)).
Qed.

(** ** calculate_counts: properties of the returned counts *)

(** The overall query-level and item-level counts are the sums over the
    per-type buckets. *)
Theorem calculate_counts_bucket_sums {Item : Type} `{Countable Item}
    (safe_query : string -> option (list Item)) (results : list data_point) oq oi tc
    (Hc : calculate_counts safe_query results = Ok (oq, oi, tc)) :
  oq = bucket_sum query_level tc /\ oi = bucket_sum item_level tc.
Proof.
  destruct (calculate_counts_run safe_query results oq oi tc Hc)
    as (r & Hr & <- & <- & <-).
  exact (run_invariant safe_query sums_inv (process_point_sums safe_query)
           results init_state r Hr (conj eq_refl eq_refl)).
Qed.

Lemma calculate_counts_bucket_sums_witness :
  calculate_counts demo_query demo_points =
    Ok (mkCounts 1 1 0 0, mkCounts 4 0 0 0, demo_tc) /\
  mkCounts 1 1 0 0 = bucket_sum query_level demo_tc /\
  mkCounts 4 0 0 0 = bucket_sum item_level demo_tc.
Proof.
  assert (Hc : calculate_counts demo_query demo_points =
                 Ok (mkCounts 1 1 0 0, mkCounts 4 0 0 0, demo_tc))
    by (vm_compute; reflexivity).
  split; [exact Hc|].
  exact (calculate_counts_bucket_sums demo_query demo_points _ _ _ Hc).
Defined.

(** The overall query-level TP is the number of cases whose two queries
    both run and return the same set of rows; the FN is the number of the
    other cases that have both queries (a raising query included). *)
Theorem calculate_counts_overall_query_counts {Item : Type} `{Countable Item}
    (safe_query : string -> option (list Item)) (results : list data_point) oq oi tc
    (Hc : calculate_counts safe_query results = Ok (oq, oi, tc)) :
  TP oq = count_if (query_matches safe_query) results /\
  FN oq = count_if (fun dp => negb (skipped dp) && negb (query_matches safe_query dp))
            results.
Proof.
  destruct (calculate_counts_run safe_query results oq oi tc Hc)
    as (r & Hr & <- & _ & _).
  exact (run_overall safe_query results init_state r Hr).
Qed.

Lemma calculate_counts_overall_query_counts_witness :
  calculate_counts demo_query demo_points =
    Ok (mkCounts 1 1 0 0, mkCounts 4 0 0 0, demo_tc) /\
  TP (mkCounts 1 1 0 0) = count_if (query_matches demo_query) demo_points /\
  FN (mkCounts 1 1 0 0) =
    count_if (fun dp => negb (skipped dp) && negb (query_matches demo_query dp))
      demo_points.
Proof.
  assert (Hc : calculate_counts demo_query demo_points =
                 Ok (mkCounts 1 1 0 0, mkCounts 4 0 0 0, demo_tc))
    by (vm_compute; reflexivity).
  split; [exact Hc|].
  exact (calculate_counts_overall_query_counts demo_query demo_points _ _ _ Hc).
Defined.

(** Per question type [k], the bucket's query-level TP and FN count the
    cases of type [k] as the overall counts do (a type never seen has an
    all-zero bucket). *)
Theorem calculate_counts_bucket_query_counts {Item : Type} `{Countable Item}
    (safe_query : string -> option (list Item)) (results : list data_point) oq oi tc
    (k : string)
    (Hc : calculate_counts safe_query results = Ok (oq, oi, tc)) :
  TP (query_level (bucket k tc)) =
    count_if (fun dp => String.eqb k (qtype_of dp) && query_matches safe_query dp)
      results /\
  FN (query_level (bucket k tc)) =
    count_if (fun dp => String.eqb k (qtype_of dp) && negb (skipped dp) &&
                        negb (query_matches safe_query dp)) results.
Proof.
  destruct (calculate_counts_run safe_query results oq oi tc Hc)
    as (r & Hr & _ & _ & <-).
  exact (run_bucket safe_query k results init_state r Hr).
Qed.

Lemma calculate_counts_bucket_query_counts_witness :
  calculate_counts demo_query demo_points =
    Ok (mkCounts 1 1 0 0, mkCounts 4 0 0 0, demo_tc) /\
  TP (query_level (bucket "t2" demo_tc)) =
    count_if (fun dp => String.eqb "t2" (qtype_of dp) && query_matches demo_query dp)
      demo_points /\
  FN (query_level (bucket "t2" demo_tc)) =
    count_if (fun dp => String.eqb "t2" (qtype_of dp) && negb (skipped dp) &&
                        negb (query_matches demo_query dp)) demo_points.
Proof.
  assert (Hc : calculate_counts demo_query demo_points =
                 Ok (mkCounts 1 1 0 0, mkCounts 4 0 0 0, demo_tc))
    by (vm_compute; reflexivity).
  split; [exact Hc|].
  exact (calculate_counts_bucket_query_counts demo_query demo_points _ _ _ "t2" Hc).
Defined.

(** Item-level TN is never incremented: it is 0 overall and in every bucket. *)
Theorem calculate_counts_item_TN_zero {Item : Type} `{Countable Item}
    (safe_query : string -> option (list Item)) (results : list data_point) oq oi tc
    (Hc : calculate_counts safe_query results = Ok (oq, oi, tc)) :
  TN oi = 0 /\ Forall (fun kv => TN (item_level kv.2) = 0) tc.
Proof.
  destruct (calculate_counts_run safe_query results oq oi tc Hc)
    as (r & Hr & _ & <- & <-).
  exact (run_invariant safe_query item_TN_inv (process_point_item_TN safe_query)
           results init_state r Hr ltac:(split; [reflexivity|constructor])).
Qed.

Lemma calculate_counts_item_TN_zero_witness :
  calculate_counts demo_query demo_points =
    Ok (mkCounts 1 1 0 0, mkCounts 4 0 0 0, demo_tc) /\
  TN (mkCounts 4 0 0 0) = 0 /\ Forall (fun kv => TN (item_level kv.2) = 0) demo_tc.
Proof.
  assert (Hc : calculate_counts demo_query demo_points =
                 Ok (mkCounts 1 1 0 0, mkCounts 4 0 0 0, demo_tc))
    by (vm_compute; reflexivity).
  split; [exact Hc|].
  exact (calculate_counts_item_TN_zero demo_query demo_points _ _ _ Hc).
Defined.

(** The buckets are keyed by the distinct question types of the input,
    skipped cases included, in order of first occurrence. *)
Theorem calculate_counts_bucket_order {Item : Type} `{Countable Item}
    (safe_query : string -> option (list Item)) (results : list data_point) oq oi tc
    (Hc : calculate_counts safe_query results = Ok (oq, oi, tc)) :
  map fst tc = first_seen (map qtype_of results).
Proof.
  destruct (calculate_counts_run safe_query results oq oi tc Hc)
    as (r & Hr & _ & _ & <-).
  exact (run_keys safe_query results init_state r Hr).
Qed.

Lemma calculate_counts_bucket_order_witness :
  calculate_counts demo_query demo_points =
    Ok (mkCounts 1 1 0 0, mkCounts 4 0 0 0, demo_tc) /\
  map fst demo_tc = first_seen (map qtype_of demo_points).
Proof.
  assert (Hc : calculate_counts demo_query demo_points =
                 Ok (mkCounts 1 1 0 0, mkCounts 4 0 0 0, demo_tc))
    by (vm_compute; reflexivity).
  split; [exact Hc|].
  exact (calculate_counts_bucket_order demo_query demo_points _ _ _ Hc).
Defined.

(** [calculate_counts] raises exactly when the first case that has both
    queries has a query that raises; the exception is then the
    UnboundLocalError on [generated_results] or [sample_results]. *)
Theorem calculate_counts_raises_iff {Item : Type} `{Countable Item}
    (safe_query : string -> option (list Item)) (results : list data_point) (e : PyExc) :
  calculate_counts safe_query results = Raise e <->
  e = UnboundLocalError /\
  exists pre dp post, results = pre ++ dp :: post /\
    Forall (fun d => skipped d = true) pre /\
    skipped dp = false /\ queries_run safe_query dp = false.
Proof.
  rewrite calculate_counts_raise.
  by apply run_raise_unbound.
Qed.

(** When both queries of a case run, the case adds a query-level TP exactly
    when its item-level FN and FP are both zero, and its item-level TP and FN
    add up to the number of gold rows. *)
Theorem both_queries_run_step {Item : Type} `{Countable Item}
    (safe_query : string -> option (list Item)) (st : loop_state) (dp : data_point)
    (sr sq : string) (g s : list Item)
    (Hc : truthy_str (candidate_query dp) = Some sr)
    (Hq : truthy_str (dp_sparql dp) = Some sq)
    (Hg : safe_query sr = Some g) (Hs : safe_query sq = Some s) :
  exists st' tp fn fp,
    process_point safe_query st dp = Ok st' /\
    overall_item st' = add_items (overall_item st) (tp, fn, fp) /\
    tp + fn = size (list_to_set s : gset Item) /\
    overall_query st' =
      (if bool_decide (fn + fp = 0) then add_TP else add_FN) (overall_query st).
Proof. exact (process_point_both_run safe_query st dp sr sq g s Hc Hq Hg Hs). Qed.

Lemma both_queries_run_step_witness :
  truthy_str (candidate_query p_ok) = Some "a" /\
  truthy_str (dp_sparql p_ok) = Some "a" /\
  demo_query "a" = Some [1; 2] /\
  exists st' tp fn fp,
    process_point demo_query init_state p_ok = Ok st' /\
    overall_item st' = add_items (overall_item (init_state (Item:=nat))) (tp, fn, fp) /\
    tp + fn = size (list_to_set [1; 2] : gset nat) /\
    overall_query st' =
      (if bool_decide (fn + fp = 0) then add_TP else add_FN)
        (overall_query (init_state (Item:=nat))).
Proof.
  split; [reflexivity|]. split; [reflexivity|]. split; [reflexivity|].
  exact (both_queries_run_step demo_query init_state p_ok "a" "a" [1; 2] [1; 2]
           eq_refl eq_refl eq_refl eq_refl).
Defined.

(** ** Lemmas on the DeepSeek loop *)

Ltac counts3_eq :=
  repeat match goal with
  | c : counts3 |- _ => destruct c
  | t : nat * nat * nat |- _ => destruct t as [[? ?] ?]
  end;
  unfold add3; simpl; f_equal; lia.

Lemma alookup_none_keys {V} (q : string) (l : list (string * V)) :
  alookup q l = None <-> existsb (String.eqb q) (map fst l) = false.
Proof.
  induction l as [|[k0 v0] rest IH]; simpl; [done|].
  destruct (String.eqb q k0); simpl; [split; discriminate|exact IH].
Qed.

Lemma akeys_ensure {V} (q : string) (z : V) (l : list (string * V)) :
  map fst (aensure q z l) =
  if existsb (String.eqb q) (map fst l) then map fst l else map fst l ++ [q].
Proof.
  unfold aensure. destruct (alookup q l) eqn:E.
  - destruct (existsb (String.eqb q) (map fst l)) eqn:E2; [done|].
    apply alookup_none_keys in E2. congruence.
  - apply alookup_none_keys in E. rewrite E, map_app. done.
Qed.

Lemma akeys_update {V} (q : string) (f : V -> V) (l : list (string * V)) :
  map fst (aupdate q f l) = map fst l.
Proof.
  induction l as [|[k0 v0] rest IH]; simpl; [done|].
  destruct (String.eqb q k0); simpl; [done|]. by rewrite IH.
Qed.

Lemma alookup_ensure_some {V} (q : string) (z : V) (l : list (string * V)) :
  alookup q (aensure q z l) <> None.
Proof.
  unfold aensure. destruct (alookup q l) eqn:E; [by rewrite E|].
  induction l as [|[k0 v0] rest IH]; simpl.
  - by rewrite String.eqb_refl.
  - simpl in E. destruct (String.eqb q k0); [discriminate|]. exact (IH E).
Qed.

Lemma bucket_sum3_ensure (q : string) (l : list (string * counts3)) :
  bucket_sum3 (aensure q zero3 l) = bucket_sum3 l.
Proof.
  unfold aensure. destruct (alookup q l); [done|].
  unfold bucket_sum3. rewrite fold_right_app. done.
Qed.

Lemma bucket_sum3_update (q : string) (t : nat * nat * nat) (l : list (string * counts3)) :
  alookup q l <> None ->
  bucket_sum3 (aupdate q (fun c => add3 c t) l) = add3 (bucket_sum3 l) t.
Proof.
  induction l as [|[k0 v0] rest IH]; simpl; [done|].
  destruct (String.eqb q k0); simpl; intros Hl.
  - fold (bucket_sum3 rest). counts3_eq.
  - fold (bucket_sum3 rest). fold (bucket_sum3 (aupdate q (fun c => add3 c t) rest)).
    rewrite IH by done. counts3_eq.
Qed.

Lemma ds_run_cons_eq acc (dp : ds_point) (rest : list ds_point) :
  ds_run acc (dp :: rest) =
  match ds_process acc dp with
  | Ok acc' => ds_run acc' rest
  | Raise e => Raise e
  end.
Proof. reflexivity. Qed.

Lemma ds_process_cases acc (dp : ds_point) :
  (ds_deepseek_answer dp = Some JNull /\ ds_process acc dp = Raise TypeError) \/
  (ds_deepseek_answer dp <> Some JNull /\
   exists t, ds_item_counts dp = Ok t /\
     ds_process acc dp =
       Ok (add3 acc.1 t, aupdate (ds_qtype dp) (fun c => add3 c t)
                           (aensure (ds_qtype dp) zero3 acc.2))).
Proof.
  unfold ds_process, ds_item_counts, ds_sets.
  destruct (ds_deepseek_answer dp) as [[b|l|]|]; simpl;
    first [left; by split | right; split; [discriminate|by eexists]].
Qed.

Lemma ds_run_sums (results : list ds_point) :
  forall acc r, ds_run acc results = Ok r -> acc.1 = bucket_sum3 acc.2 ->
  r.1 = bucket_sum3 r.2.
Proof.
  induction results as [|dp rest IH]; intros acc r Hrun Hinv.
  - simpl in Hrun. by injection Hrun as <-.
  - rewrite ds_run_cons_eq in Hrun.
    destruct (ds_process_cases acc dp) as [(_ & Hp)|(_ & t & _ & Hp)];
      rewrite Hp in Hrun; [discriminate|].
    apply (IH _ r Hrun). simpl.
    rewrite bucket_sum3_update by apply alookup_ensure_some.
    by rewrite bucket_sum3_ensure, Hinv.
Qed.

Lemma ds_run_keys (results : list ds_point) :
  forall acc r, ds_run acc results = Ok r ->
  map fst r.2 =
  fold_left (fun seen x => if existsb (String.eqb x) seen then seen else seen ++ [x])
    (map ds_qtype results) (map fst acc.2).
Proof.
  induction results as [|dp rest IH]; intros acc r Hrun.
  - simpl in Hrun. by injection Hrun as <-.
  - rewrite ds_run_cons_eq in Hrun.
    destruct (ds_process_cases acc dp) as [(_ & Hp)|(_ & t & _ & Hp)];
      rewrite Hp in Hrun; [discriminate|].
    simpl. rewrite (IH _ r Hrun). simpl.
    by rewrite akeys_update, akeys_ensure.
Qed.

Lemma ds_run_raise (results : list ds_point) :
  forall acc e, ds_run acc results = Raise e <->
  e = TypeError /\ exists dp, In dp results /\ ds_deepseek_answer dp = Some JNull.
Proof.
  induction results as [|dp rest IH]; intros acc e.
  - simpl. split; [discriminate|]. intros (_ & dp & [] & _).
  - rewrite ds_run_cons_eq.
    destruct (ds_process_cases acc dp) as [(Hn & Hp)|(Hn & t & _ & Hp)]; rewrite Hp.
    + split.
      * intros E. injection E as <-. split; [done|]. exists dp. by split; [left|].
      * by intros [-> _].
    + rewrite IH. split.
      * intros (He & dp' & Hin & Hnull). split; [done|]. exists dp'. by split; [right|].
      * intros (He & dp' & [<-|Hin] & Hnull); [done|].
        split; [done|]. by exists dp'.
Qed.

Lemma ds_list_counts (dp : ds_point) (l : list string) :
  ds_deepseek_answer dp = Some (JList l) ->
  exists tp fn fp, ds_item_counts dp = Ok (tp, fn, fp) /\
    tp + fn = size (correct_set dp) /\ tp + fp = size (list_to_set l : gset string).
Proof.
  intros Hd. unfold ds_item_counts, ds_sets. rewrite Hd. simpl.
  eexists _, _, _. split; [reflexivity|]. split.
  - apply size_inter_diff.
  - rewrite intersection_comm_L. apply size_inter_diff.
Qed.

(** ** calculate_item_metrics (DeepSeek script) *)

(** The overall counts are the sums of the per-type buckets. *)
Theorem calculate_item_metrics_sums (results : list ds_point) (o : counts3)
    (tc : list (string * counts3))
    (Hc : calculate_item_metrics results = Ok (o, tc)) :
  o = bucket_sum3 tc.
Proof. exact (ds_run_sums results (zero3, []) (o, tc) Hc eq_refl). Qed.

Lemma calculate_item_metrics_sums_witness :
  calculate_item_metrics ds_demo =
    Ok (mkCounts3 1 2 2, [("x", mkCounts3 1 1 1); ("y", mkCounts3 0 1 1);
                          ("unknown", zero3)]) /\
  mkCounts3 1 2 2 =
    bucket_sum3 [("x", mkCounts3 1 1 1); ("y", mkCounts3 0 1 1); ("unknown", zero3)].
Proof.
  assert (Hc : calculate_item_metrics ds_demo =
    Ok (mkCounts3 1 2 2, [("x", mkCounts3 1 1 1); ("y", mkCounts3 0 1 1);
                          ("unknown", zero3)])) by (vm_compute; reflexivity).
  split; [exact Hc|]. exact (calculate_item_metrics_sums ds_demo _ _ Hc).
Defined.

(** The buckets are keyed by the distinct question types ("unknown" when
    absent), in order of first occurrence. *)
Theorem calculate_item_metrics_bucket_order (results : list ds_point) (o : counts3)
    (tc : list (string * counts3))
    (Hc : calculate_item_metrics results = Ok (o, tc)) :
  map fst tc = first_seen (map ds_qtype results).
Proof. exact (ds_run_keys results (zero3, []) (o, tc) Hc). Qed.

Lemma calculate_item_metrics_bucket_order_witness :
  calculate_item_metrics ds_demo =
    Ok (mkCounts3 1 2 2, [("x", mkCounts3 1 1 1); ("y", mkCounts3 0 1 1);
                          ("unknown", zero3)]) /\
  map fst [("x", mkCounts3 1 1 1); ("y", mkCounts3 0 1 1); ("unknown", zero3)] =
    first_seen (map ds_qtype ds_demo).
Proof.
  assert (Hc : calculate_item_metrics ds_demo =
    Ok (mkCounts3 1 2 2, [("x", mkCounts3 1 1 1); ("y", mkCounts3 0 1 1);
                          ("unknown", zero3)])) by (vm_compute; reflexivity).
  split; [exact Hc|]. exact (calculate_item_metrics_bucket_order ds_demo _ _ Hc).
Defined.

(** A point whose "deepseek-answer" is a JSON null ([set(None)] raises)
    makes [calculate_item_metrics] raise: it never returns counts. *)
Theorem calculate_item_metrics_null_raises (results : list ds_point) (dp : ds_point)
    (Hin : In dp results) (Hnull : ds_deepseek_answer dp = Some JNull) :
  exists e, calculate_item_metrics results = Raise e.
Proof.
  exists TypeError. apply ds_run_raise. split; [done|]. by exists dp.
Qed.

Lemma calculate_item_metrics_null_raises_witness :
  In (mkDsPoint (Some "z") None (Some JNull)) (ds_demo ++ [mkDsPoint (Some "z") None (Some JNull)]) /\
  ds_deepseek_answer (mkDsPoint (Some "z") None (Some JNull)) = Some JNull /\
  exists e, calculate_item_metrics (ds_demo ++ [mkDsPoint (Some "z") None (Some JNull)]) = Raise e.
Proof.
  assert (Hin : In (mkDsPoint (Some "z") None (Some JNull))
                  (ds_demo ++ [mkDsPoint (Some "z") None (Some JNull)]))
    by (apply in_or_app; right; left; reflexivity).
  split; [exact Hin|]. split; [reflexivity|].
  exact (calculate_item_metrics_null_raises _ _ Hin eq_refl).
Defined.

(** A boolean "deepseek-answer" makes the point count either one TP (the
    boolean agrees with whether "YES" is among the gold answers) or one FN
    and one FP. *)
Theorem ds_boolean_answer_counts (dp : ds_point) (b : bool)
    (Hd : ds_deepseek_answer dp = Some (JBool b)) :
  ds_item_counts dp =
    if Bool.eqb b (bool_decide ("YES" ∈ correct_set dp)) then Ok (1, 0, 0)
    else Ok (0, 1, 1).
Proof.
  unfold ds_item_counts, ds_sets. rewrite Hd. simpl.
  destruct (bool_decide ("YES" ∈ correct_set dp)), b; vm_compute; reflexivity.
Qed.

Lemma ds_boolean_answer_counts_witness :
  ds_deepseek_answer ds_p2 = Some (JBool false) /\
  ds_item_counts ds_p2 =
    if Bool.eqb false (bool_decide ("YES" ∈ correct_set ds_p2)) then Ok (1, 0, 0)
    else Ok (0, 1, 1).
Proof.
  split; [reflexivity|]. exact (ds_boolean_answer_counts ds_p2 false eq_refl).
Defined.

(** For a list "deepseek-answer", TP + FN is the number of distinct gold
    answers and TP + FP the number of distinct DeepSeek answers. *)
Theorem ds_list_answer_counts (dp : ds_point) (l : list string)
    (Hd : ds_deepseek_answer dp = Some (JList l)) :
  exists tp fn fp, ds_item_counts dp = Ok (tp, fn, fp) /\
    tp + fn = size (correct_set dp) /\ tp + fp = size (list_to_set l : gset string).
Proof. exact (ds_list_counts dp l Hd). Qed.

Lemma ds_list_answer_counts_witness :
  ds_deepseek_answer ds_p1 = Some (JList ["a"; "c"]) /\
  exists tp fn fp, ds_item_counts ds_p1 = Ok (tp, fn, fp) /\
    tp + fn = size (correct_set ds_p1) /\
    tp + fp = size (list_to_set ["a"; "c"] : gset string).
Proof.
  split; [reflexivity|]. exact (ds_list_answer_counts ds_p1 ["a"; "c"] eq_refl).
Defined.

(** ** export_wrong_item_level_director (error.py) *)

Lemma count_if_split {X} (p q : X -> bool) (l : list X) :
  count_if (fun x => p x && negb (q x)) l + count_if (fun x => p x && q x) l =
  count_if p l.
Proof.
  induction l as [|x l IH]; [reflexivity|].
  rewrite !count_if_cons. destruct (p x), (q x); simpl; lia.
Qed.

Lemma count_if_ext {X} (p q : X -> bool) (l : list X) :
  (forall x, p x = q x) -> count_if p l = count_if q l.
Proof.
  intros Hpq. induction l as [|x l IH]; [reflexivity|].
  by rewrite !count_if_cons, Hpq, IH.
Qed.

Section ExportLemmas.

Context {Item : Type} `{Countable Item}.
Variable safe_query : string -> option (list Item).

Lemma export_step_eq (wrong : list data_point) (dp : data_point) :
  export_step safe_query wrong dp =
  wrong ++ (if String.eqb (qtype_of dp) designated_type &&
               negb (query_matches safe_query dp) then [dp] else []).
Proof.
  unfold export_step, query_matches.
  destruct (String.eqb (qtype_of dp) designated_type); simpl; [|by rewrite app_nil_r].
  destruct (truthy_str (candidate_query dp)) as [sr|], (truthy_str (dp_sparql dp)) as [sq|];
    try done.
  destruct (safe_query sr), (safe_query sq); try done.
  by destruct (bool_decide_reflect ((list_to_set l : gset Item) = list_to_set l0)),
    (bool_decide_reflect ((list_to_set l : gset Item) <> list_to_set l0));
    simpl; rewrite ?app_nil_r.
Qed.

Lemma export_fold (results : list data_point) :
  forall acc, fold_left (export_step safe_query) results acc =
  acc ++ filter (fun dp => String.eqb (qtype_of dp) designated_type &&
                           negb (query_matches safe_query dp)) results.
Proof.
  induction results as [|dp rest IH]; intros acc; simpl.
  - by rewrite app_nil_r.
  - rewrite IH, export_step_eq, filter_cons, <- app_assoc.
    by destruct (String.eqb (qtype_of dp) designated_type &&
                 negb (query_matches safe_query dp)).
Qed.

Lemma export_wrong_eq (results : list data_point) :
  export_wrong safe_query results =
  filter (fun dp => String.eqb (qtype_of dp) designated_type &&
                    negb (query_matches safe_query dp)) results.
Proof. unfold export_wrong. by rewrite export_fold. Qed.

End ExportLemmas.

(** The exported points are, in input order, exactly the cases of type
    "actor_to_movie_constraint_year" that are not a query-level match in the
    sense of [calculate_counts]: a missing query, a query that raises, or
    different result sets. *)
Theorem export_wrong_is_filter {Item : Type} `{Countable Item}
    (safe_query : string -> option (list Item)) (results : list data_point) :
  export_wrong safe_query results =
  filter (fun dp => String.eqb (qtype_of dp) designated_type &&
                    negb (query_matches safe_query dp)) results.
Proof. apply export_wrong_eq. Qed.

(** Against a run of [calculate_counts] on the same results and endpoint,
    the exported points and the query-level TP of the designated bucket
    together account for every case of that type. *)
Theorem export_wrong_complements_TP {Item : Type} `{Countable Item}
    (safe_query : string -> option (list Item)) (results : list data_point) oq oi tc
    (Hc : calculate_counts safe_query results = Ok (oq, oi, tc)) :
  length (export_wrong safe_query results) +
    TP (query_level (bucket designated_type tc)) =
  count_if (fun dp => String.eqb (qtype_of dp) designated_type) results.
Proof.
  destruct (calculate_counts_run safe_query results oq oi tc Hc)
    as (r & Hr & _ & _ & <-).
  destruct (run_bucket safe_query designated_type results init_state r Hr) as [E _].
  rewrite E, export_wrong_eq.
  change (TP (query_level (bucket designated_type (tcounts init_state)))) with 0.
  rewrite <- (count_if_split (fun dp => String.eqb (qtype_of dp) designated_type)
                (query_matches safe_query)).
  rewrite (count_if_ext
    (fun dp => String.eqb designated_type (qtype_of dp) && query_matches safe_query dp)
    (fun dp => String.eqb (qtype_of dp) designated_type && query_matches safe_query dp))
    by (intros; by rewrite String.eqb_sym).
  reflexivity.
Qed.

Lemma export_wrong_complements_TP_witness :
  calculate_counts demo_query des_demo = Ok (mkCounts 2 1 0 0, mkCounts 5 1 1 0, des_tc) /\
  length (export_wrong demo_query des_demo) +
    TP (query_level (bucket designated_type des_tc)) =
  count_if (fun dp => String.eqb (qtype_of dp) designated_type) des_demo.
Proof.
  assert (Hc : calculate_counts demo_query des_demo =
                 Ok (mkCounts 2 1 0 0, mkCounts 5 1 1 0, des_tc))
    by (vm_compute; reflexivity).
  split; [exact Hc|]. exact (export_wrong_complements_TP demo_query des_demo _ _ _ Hc).
Defined.

(** ** create_small_dataset (full_to_83_question_type.py) *)

Lemma first_seen_fold_in (l seen : list string) (q : string) :
  In q (fold_left (fun seen x => if existsb (String.eqb x) seen then seen else seen ++ [x])
          l seen) <-> In q seen \/ In q l.
Proof.
  revert seen. induction l as [|x l IH]; intros seen; simpl.
  - tauto.
  - rewrite IH. destruct (existsb (String.eqb x) seen) eqn:E.
    + apply existsb_exists in E as (y & Hy & Exy). apply String.eqb_eq in Exy. subst y.
      split; [tauto|]. intros [H|[<-|H]]; tauto.
    + rewrite in_app_iff. simpl. tauto.
Qed.

Lemma first_seen_fold_nodup (l seen : list string) :
  NoDup seen ->
  NoDup (fold_left (fun seen x => if existsb (String.eqb x) seen then seen else seen ++ [x])
           l seen).
Proof.
  revert seen. induction l as [|x l IH]; intros seen Hnd; simpl; [done|].
  apply IH. destruct (existsb (String.eqb x) seen) eqn:E; [done|].
  apply NoDup_app. split; [done|]. split; [|apply NoDup_singleton].
  intros y Hy Hy'. apply list_elem_of_singleton in Hy'. subst y.
  apply list_elem_of_In in Hy.
  assert (existsb (String.eqb x) seen = true)
    by (apply existsb_exists; exists x; by rewrite String.eqb_refl).
  congruence.
Qed.

Lemma existsb_eqb_in (q : string) (l : list string) :
  existsb (String.eqb q) l = true <-> In q l.
Proof.
  rewrite existsb_exists. split.
  - intros (y & Hy & E). apply String.eqb_eq in E. by subst.
  - intros Hq. exists q. by rewrite String.eqb_refl.
Qed.

Lemma filter_all_eq {A} (p : A -> bool) (b : bool) (l : list A) :
  Forall (fun x => p x = b) l -> filter p l = if b then l else [].
Proof.
  induction 1 as [|x l Hx Hl IH]; [by destruct b|].
  rewrite filter_cons, Hx, IH. by destruct b.
Qed.

Section SmallLemmas.

Context {A : Type}.
Variable question_type : A -> option string.

Lemma qtypes_app (l l' : list A) :
  qtypes question_type (l ++ l') = qtypes question_type l ++ qtypes question_type l'.
Proof.
  induction l as [|x l IH]; simpl; [done|].
  destruct (question_type x); simpl; by rewrite IH.
Qed.

Lemma in_qtypes (q : string) (l : list A) :
  In q (qtypes question_type l) <-> exists x, In x l /\ question_type x = Some q.
Proof.
  induction l as [|x l IH]; simpl.
  - split; [done|]. by intros (y & [] & _).
  - destruct (question_type x) as [q'|] eqn:E; simpl; rewrite IH.
    + split.
      * intros [<-|(y & Hy & Ey)]; [by exists x; split; [left|]|].
        exists y. by split; [right|].
      * intros (y & [<-|Hy] & Ey); [left; congruence|right; by exists y].
    + split.
      * intros (y & Hy & Ey). exists y. by split; [right|].
      * intros (y & [<-|Hy] & Ey); [congruence|by exists y].
Qed.

Lemma filter_absent (q : string) (l : list A) :
  ~ In q (first_seen (qtypes question_type l)) ->
  filter (of_type question_type q) l = [].
Proof.
  intros Hq. rewrite (filter_all_eq _ false); [done|].
  apply Forall_forall. intros x Hx%list_elem_of_In.
  unfold of_type. destruct (question_type x) as [q'|] eqn:E; [|done].
  destruct (String.eqb_spec q' q) as [->|]; [|done].
  exfalso. apply Hq. unfold first_seen. apply first_seen_fold_in. right.
  apply in_qtypes. by exists x.
Qed.

Lemma alookup_map (F : string -> list A) (q : string) (K : list string) :
  alookup q (map (fun k => (k, F k)) K) =
  if existsb (String.eqb q) K then Some (F q) else None.
Proof.
  induction K as [|k K IH]; simpl; [done|].
  destruct (String.eqb_spec q k) as [->|]; simpl; [done|exact IH].
Qed.

Lemma aupdate_map (F : string -> list A) (f : list A -> list A) (q : string)
    (K : list string) :
  NoDup K ->
  aupdate q f (map (fun k => (k, F k)) K) =
  map (fun k => (k, if String.eqb q k then f (F k) else F k)) K.
Proof.
  induction 1 as [|k K Hk Hnd IH]; simpl; [done|].
  destruct (String.eqb_spec q k) as [->|Hne].
  - f_equal. apply map_ext_in. intros k' Hk'.
    destruct (String.eqb_spec k k') as [->|]; [|done].
    exfalso. apply Hk. by apply list_elem_of_In.
  - by rewrite IH.
Qed.

Lemma aupdate_absent {V} (f : V -> V) (q : string) (z : V) (l : list (string * V)) :
  alookup q l = None -> aupdate q f (l ++ [(q, z)]) = l ++ [(q, f z)].
Proof.
  induction l as [|[k v] l IH]; simpl.
  - by rewrite String.eqb_refl.
  - destruct (String.eqb q k); [discriminate|]. intros Hl. by rewrite IH.
Qed.

Lemma filter_snoc_type (k : string) (l : list A) (x : A) :
  filter (of_type question_type k) (l ++ [x]) =
  filter (of_type question_type k) l ++ (if of_type question_type k x then [x] else []).
Proof.
  rewrite filter_app, filter_cons, filter_nil. by destruct (of_type question_type k x).
Qed.

(** [groups] after the first loop: one group per question type, in order of
    first occurrence, holding the items of that type in input order. *)
Lemma group_items_eq (data : list A) :
  group_items question_type data =
  map (fun k => (k, filter (of_type question_type k) data))
    (first_seen (qtypes question_type data)).
Proof.
  induction data as [|x l IH] using rev_ind; [reflexivity|].
  unfold group_items in *. rewrite fold_left_app. simpl. rewrite IH.
  unfold first_seen. rewrite qtypes_app, fold_left_app. simpl.
  set (K := fold_left (fun seen x => if existsb (String.eqb x) seen then seen else seen ++ [x])
              (qtypes question_type l) []).
  assert (HK : NoDup K) by (apply first_seen_fold_nodup; constructor).
  destruct (question_type x) as [q|] eqn:Eq; simpl.
  - assert (Hx : forall k, of_type question_type k x = String.eqb q k)
      by (intros; unfold of_type; by rewrite Eq).
    unfold group_add, aensure. rewrite alookup_map.
    destruct (existsb (String.eqb q) K) eqn:Ein.
    + rewrite aupdate_map by done. apply map_ext. intros k. f_equal.
      rewrite filter_snoc_type, Hx.
      destruct (String.eqb q k); [done|by rewrite app_nil_r].
    + rewrite aupdate_absent by (rewrite alookup_map, Ein; done).
      rewrite map_app. simpl. f_equal.
      * apply map_ext_in. intros k Hk. f_equal.
        rewrite filter_snoc_type, Hx.
        destruct (String.eqb_spec q k) as [->|]; [|by rewrite app_nil_r].
        apply existsb_eqb_in in Hk. congruence.
      * rewrite filter_snoc_type, Hx, String.eqb_refl.
        rewrite filter_absent; [done|].
        unfold first_seen. fold K. intros Hq. apply existsb_eqb_in in Hq. congruence.
  - assert (Hx : forall k, of_type question_type k x = false)
      by (intros; unfold of_type; by rewrite Eq).
    apply map_ext. intros k. f_equal. rewrite filter_snoc_type, Hx.
    by rewrite app_nil_r.
Qed.

Lemma create_small_dataset_eq (n : nat) (data : list A) :
  create_small_dataset question_type n data =
  concat (map (fun k => take n (filter (of_type question_type k) data))
            (first_seen (qtypes question_type data))).
Proof.
  unfold create_small_dataset. rewrite group_items_eq.
  generalize (first_seen (qtypes question_type data)) as K.
  assert (Hgen : forall K (acc : list A),
    fold_left (fun small '(_, items) => small ++ take n items)
      (map (fun k => (k, filter (of_type question_type k) data)) K) acc =
    acc ++ concat (map (fun k => take n (filter (of_type question_type k) data)) K)).
  { induction K as [|k K IH]; intros acc; simpl; [by rewrite app_nil_r|].
    by rewrite IH, app_assoc. }
  intros K. by rewrite Hgen.
Qed.

Lemma filter_take_type (k k' : string) (n : nat) (data : list A) :
  filter (of_type question_type k) (take n (filter (of_type question_type k') data)) =
  if String.eqb k' k then take n (filter (of_type question_type k) data) else [].
Proof.
  destruct (String.eqb_spec k' k) as [->|Hne].
  - rewrite (filter_all_eq _ true); [done|].
    apply Forall_take. apply Forall_forall. intros x Hx.
    apply list_elem_of_filter in Hx as [Hx _]. by apply Is_true_true.
  - rewrite (filter_all_eq _ false); [done|].
    apply Forall_take. apply Forall_forall. intros x Hx.
    apply list_elem_of_filter in Hx as [Hx _]. apply Is_true_true in Hx.
    unfold of_type in *. destruct (question_type x) as [q|]; [|done].
    apply String.eqb_eq in Hx. subst q. by apply String.eqb_neq.
Qed.

Lemma filter_concat_types (k : string) (n : nat) (data : list A) (K : list string) :
  NoDup K ->
  filter (of_type question_type k)
    (concat (map (fun k' => take n (filter (of_type question_type k') data)) K)) =
  if existsb (String.eqb k) K then take n (filter (of_type question_type k) data) else [].
Proof.
  induction 1 as [|k' K Hk' Hnd IH]; [done|].
  simpl. rewrite filter_app, IH, filter_take_type.
  rewrite (String.eqb_sym k' k).
  destruct (String.eqb_spec k k') as [->|]; simpl; [|done].
  destruct (existsb (String.eqb k') K) eqn:E; [|by rewrite app_nil_r].
  apply existsb_eqb_in, list_elem_of_In in E. contradiction.
Qed.

Lemma create_small_dataset_type (n : nat) (data : list A) (k : string) :
  filter (of_type question_type k) (create_small_dataset question_type n data) =
  take n (filter (of_type question_type k) data).
Proof.
  rewrite create_small_dataset_eq, filter_concat_types
    by (apply first_seen_fold_nodup; constructor).
  destruct (existsb (String.eqb k) (first_seen (qtypes question_type data))) eqn:E;
    [done|].
  rewrite filter_absent; [by rewrite take_nil|].
  intros Hk. apply existsb_eqb_in in Hk. congruence.
Qed.

End SmallLemmas.

(** The small dataset lists, for each question type in order of first
    occurrence, the first [n_per_type] items of that type in input order;
    items without a question type are dropped. *)
Theorem create_small_dataset_closed_form {A : Type} (question_type : A -> option string)
    (n_per_type : nat) (data : list A) :
  create_small_dataset question_type n_per_type data =
  concat (map (fun k => take n_per_type (filter (of_type question_type k) data))
            (first_seen (qtypes question_type data))).
Proof. apply create_small_dataset_eq. Qed.

(** For every question type, the items of that type in the small dataset
    are the first [n_per_type] items of that type in the input. *)
Theorem create_small_dataset_per_type {A : Type} (question_type : A -> option string)
    (n_per_type : nat) (data : list A) (k : string) :
  filter (of_type question_type k) (create_small_dataset question_type n_per_type data) =
  take n_per_type (filter (of_type question_type k) data).
Proof. apply create_small_dataset_type. Qed.
